(** * A shallow embedding of [main.py]: the PubMed fetch-classify-export pipeline

    The program is a linear pipeline: one search request, one batched detail
    request, a per-record classification of contributor affiliations, and a
    CSV writer, all wrapped in a single [try/except] in [main].

    The embedding keeps the dynamic typing of the source: values decoded from
    a JSON body are arbitrary, every built-in used by the program is a partial
    operation that raises the exception Python raises, and the effects of a run
    (requests sent, files opened, lines written, log records) are collected in
    a trace. *)

From Stdlib Require Import String Ascii List ZArith Bool Lia.
Import ListNotations.
Open Scope string_scope.
Open Scope list_scope.

(** ** Python values and built-ins *)

Module Py.

(** What [response.json()] can return.  A [str] is kept as the bytes of
    its UTF-8 encoding, each code point encoded on its own (a lone surrogate
    as its three bytes), so that equality, concatenation and containment of
    strs are those of the byte sequences; a [float] is kept as its 64 bits,
    the program never computes with one.  A [VDict] lists the items of the
    dict in iteration order. *)
#[warnings="-register-all"]
Inductive value :=
| VNone
| VBool (b : bool)
| VInt (n : Z)
| VFloat (bits : N)
| VStr (s : string)
| VList (l : list value)
| VDict (d : list (string * value)).

(** The exception classes the program can meet, all subclasses of
    [Exception]. *)
Inductive exn :=
| RequestException
| HTTPError (status : Z)
| JSONDecodeError
| AttributeError
| KeyError (key : string)
| TypeError
| OSError
| UnicodeEncodeError.

Inductive outcome (A : Type) :=
| Ok (a : A)
| Raise (e : exn).
Arguments Ok {A} a.
Arguments Raise {A} e.

Definition obind {A B} (m : outcome A) (f : A -> outcome B) : outcome B :=
  match m with
  | Ok a => f a
  | Raise e => Raise e
  end.

Notation "x <~ c ;; k" := (obind c (fun x => k))
  (at level 61, c at next level, right associativity).

Fixpoint dict_lookup (d : list (string * value)) (k : string) : option value :=
  match d with
  | [] => None
  | (k', v) :: d' => if String.eqb k' k then Some v else dict_lookup d' k
  end.

Definition dict_mem (d : list (string * value)) (k : string) : bool :=
  match dict_lookup d k with Some _ => true | None => false end.

(** [o.get(k, default)]: only a dict has the method. *)
Definition py_get (o : value) (k : string) (default : value) : outcome value :=
  match o with
  | VDict d => Ok (match dict_lookup d k with Some v => v | None => default end)
  | _ => Raise AttributeError
  end.

(** [o[k]] for a [str] key [k]. *)
Definition py_getitem (o : value) (k : string) : outcome value :=
  match o with
  | VDict d => match dict_lookup d k with
               | Some v => Ok v
               | None => Raise (KeyError k)
               end
  | _ => Raise TypeError
  end.

(** A byte [10xxxxxx], which continues the encoding of a code point. *)
Definition is_continuation (c : ascii) : bool :=
  let n := N_of_ascii c in (128 <=? n)%N && (n <? 192)%N.

Definition starts_with_continuation (s : string) : bool :=
  match s with
  | EmptyString => false
  | String c _ => is_continuation c
  end.

(** The characters of a str: each leading byte with the continuation bytes
    that follow it. *)
Fixpoint chars (s : string) : list string :=
  match s with
  | EmptyString => []
  | String c s' =>
      match chars s' with
      | x :: r =>
          if starts_with_continuation s' then String c x :: r
          else String c EmptyString :: x :: r
      | [] => [String c EmptyString]
      end
  end.

(** [for x in o]: the elements of a list, the keys of a dict, the characters
    of a str. *)
Definition py_iter (o : value) : outcome (list value) :=
  match o with
  | VList l => Ok l
  | VDict d => Ok (map (fun kv => VStr (fst kv)) d)
  | VStr s => Ok (map VStr (chars s))
  | _ => Raise TypeError
  end.

Fixpoint all_str (l : list value) : outcome (list string) :=
  match l with
  | [] => Ok []
  | VStr s :: l' => r <~ all_str l' ;; Ok (s :: r)
  | _ :: _ => Raise TypeError
  end.

(** The str items of an iterable, as [sep.join(o)] consumes them. *)
Definition py_str_items (o : value) : outcome (list string) :=
  l <~ py_iter o ;; all_str l.

(** [sep.join(o)] *)
Definition str_join (sep : string) (o : value) : outcome string :=
  l <~ py_str_items o ;; Ok (String.concat sep l).

Fixpoint is_prefix (p s : string) : bool :=
  match p, s with
  | EmptyString, _ => true
  | String a p', String b s' => Ascii.eqb a b && is_prefix p' s'
  | String _ _, EmptyString => false
  end.

Fixpoint is_substring (p s : string) : bool :=
  is_prefix p s ||
  match s with
  | EmptyString => false
  | String _ s' => is_substring p s'
  end.

Definition is_VStr (s : string) (v : value) : bool :=
  match v with
  | VStr s' => String.eqb s s'
  | _ => false
  end.

(** [k in o] for a [str] [k]. *)
Definition py_contains (o : value) (k : string) : outcome bool :=
  match o with
  | VDict d => Ok (dict_mem d k)
  | VList l => Ok (existsb (is_VStr k) l)
  | VStr s => Ok (is_substring k s)
  | _ => Raise TypeError
  end.

(** [[elt(x) for x in l if cond(x)]]: for each element in turn the condition
    is evaluated, then the element expression. *)
Fixpoint list_comp {A B} (cond : A -> outcome bool) (elt : A -> outcome B)
    (l : list A) : outcome (list B) :=
  match l with
  | [] => Ok []
  | x :: l' =>
      c <~ cond x ;;
      if c then y <~ elt x ;; r <~ list_comp cond elt l' ;; Ok (y :: r)
      else list_comp cond elt l'
  end.

End Py.

(** ** The fragment of [re] the program uses *)

Module Re.

(** An ASCII capital to its small letter; every other byte as it is. *)
Definition lower (c : ascii) : ascii :=
  let n := N_of_ascii c in
  if (65 <=? n)%N && (n <=? 90)%N then ascii_of_N (n + 32) else c.

Definition bytes (l : list nat) : string :=
  fold_right (fun n s => String (ascii_of_nat n) s) EmptyString l.

(** The characters outside ASCII that [re.IGNORECASE] takes for an ASCII
    letter, as encoded: U+0130 and U+0131 for [i], U+017F for [s], U+212A for
    [k]. *)
Definition folds (a : ascii) : list string :=
  let n := N_of_ascii (lower a) in
  if (n =? 105)%N then [bytes [196; 176]; bytes [196; 177]]
  else if (n =? 115)%N then [bytes [197; 191]]
  else if (n =? 107)%N then [bytes [226; 132; 170]]
  else [].

Fixpoint strip_prefix (f s : string) : option string :=
  match f, s with
  | EmptyString, _ => Some s
  | String a f', String b s' => if Ascii.eqb a b then strip_prefix f' s' else None
  | String _ _, EmptyString => None
  end.

(** The literal [p] matches at the start of [s]: letter by letter, in either
    case, or through one of the characters of [folds]. *)
Fixpoint match_here (p s : string) : bool :=
  match p with
  | EmptyString => true
  | String a p' =>
      match s with
      | String b s' => Ascii.eqb (lower a) (lower b) && match_here p' s'
      | EmptyString => false
      end
      || existsb (fun f => match strip_prefix f s with
                           | Some s' => match_here p' s'
                           | None => false
                           end)
                 (folds a)
  end.

Fixpoint search_literal (p s : string) : bool :=
  match_here p s ||
  match s with
  | EmptyString => false
  | String _ s' => search_literal p s'
  end.

(** The branches of a pattern [b1|b2|...] whose branches are literals. *)
Fixpoint branches_from (cur : string) (pat : string) : list string :=
  match pat with
  | EmptyString => [cur]
  | String c pat' =>
      if Ascii.eqb c "|" then cur :: branches_from EmptyString pat'
      else branches_from (String.append cur (String c EmptyString)) pat'
  end.

Definition branches (pat : string) : list string := branches_from EmptyString pat.

(** [re.search(pat, s, re.IGNORECASE)] as a truth value, for a pattern that
    is an alternation of ASCII literals: a branch matches where its letters
    occur in [s], each in either case or as one of its [folds]. *)
Definition search_str (pat s : string) : bool :=
  existsb (fun b => search_literal b s) (branches pat).

(** The subject must be a str. *)
Definition search (pat : string) (subject : Py.value) : Py.outcome bool :=
  match subject with
  | Py.VStr s => Py.Ok (search_str pat s)
  | _ => Py.Raise Py.TypeError
  end.

End Re.

Import Py.

(** ** Rows, the outside world and effects *)

(** The dict built by [extract_paper_data], with its six keys. *)
Record row := mkRow {
  PubmedID : value;
  Title : value;
  Publication_Date : value;
  Non_academic_Authors : string;
  Company_Affiliations : string;
  Corresponding_Author_Email : value
}.

(** What [requests.get] can do: fail in transport, or deliver a status code
    and a body that decodes as JSON or does not. *)
Inductive http_result :=
| Unreachable
| Responded (status_code : Z) (body : option value).

(** The world answers the requests, says whether a file can be opened for
    writing and, for an open file, what the write of the [i]-th row of a table
    does: nothing to report, or the exception it raises ([UnicodeEncodeError]
    when the encoding of the file lacks a character of the row, [OSError] from
    the device).  Closing an open file is taken to succeed. *)
Record world := mkWorld {
  http_get : string -> list (string * value) -> http_result;
  fs_open : string -> bool;
  fs_write : string -> nat -> row -> option exn
}.

Inductive event :=
| HttpGet (url : string) (params : list (string * value))
| LogConfig
| LogDebug (ids : value)
| LogError (e : exn)
| FileOpen (filename : string)
| FileClose (filename : string)
| CsvHeader (filename : string) (fieldnames : list string)
| CsvRow (filename : string) (r : row)
| Stdout (r : row).

Definition trace := list event.

(** A computation reads the world, appends to the trace and returns or
    raises. *)
Definition M (A : Type) : Type := world -> trace * outcome A.

Definition ret {A} (a : A) : M A := fun _ => ([], Ok a).

Definition raise {A} (e : exn) : M A := fun _ => ([], Raise e).

Definition bind {A B} (m : M A) (f : A -> M B) : M B :=
  fun w =>
    match m w with
    | (t1, Ok a) => let (t2, o) := f a w in (t1 ++ t2, o)
    | (t1, Raise e) => (t1, Raise e)
    end.

Notation "x <- c ;; k" := (bind c (fun x => k))
  (at level 61, c at next level, right associativity).
Notation "c ;;; k" := (bind c (fun _ => k))
  (at level 61, right associativity).

Definition emit (e : event) : M unit := fun _ => ([e], Ok tt).

Definition lift {A} (o : outcome A) : M A := fun _ => ([], o).

(** [try: body / except Exception as e: handler(e)] *)
Definition try_except {A} (body : M A) (handler : exn -> M A) : M A :=
  fun w =>
    match body w with
    | (t1, Ok a) => (t1, Ok a)
    | (t1, Raise e) => let (t2, o) := handler e w in (t1 ++ t2, o)
    end.

Fixpoint for_each {A} (f : A -> M unit) (l : list A) : M unit :=
  match l with
  | [] => ret tt
  | x :: l' => f x ;;; for_each f l'
  end.

(** ** [requests], [open], [csv] and [logging] *)

Record response := mkResponse {
  status_code : Z;
  body : option value
}.

Definition requests_get (url : string) (params : list (string * value)) : M response :=
  fun w =>
    ([HttpGet url params],
     match http_get w url params with
     | Unreachable => Raise RequestException
     | Responded st b => Ok (mkResponse st b)
     end).

Definition raise_for_status (r : response) : M unit :=
  if (400 <=? status_code r)%Z && (status_code r <? 600)%Z
  then raise (HTTPError (status_code r))
  else ret tt.

Definition response_json (r : response) : M value :=
  match body r with
  | Some v => ret v
  | None => raise JSONDecodeError
  end.

(** What [csv.DictWriter] can be given as its first argument. *)
Inductive fileobj :=
| File (filename : string)
| PrintFunction.

Record DictWriter := mkDictWriter {
  target : string;
  fieldnames_of : list string
}.

(** [csv.DictWriter(f, fieldnames=...)]: the underlying [csv.writer] needs a
    [write] method on [f], which the built-in [print] does not have. *)
Definition csv_DictWriter (f : fileobj) (fieldnames : list string) : M DictWriter :=
  match f with
  | File name => ret (mkDictWriter name fieldnames)
  | PrintFunction => raise TypeError
  end.

(** [writer.writeheader()]: the six column names are ASCII text, which the
    encoding of the file takes. *)
Definition writeheader (wr : DictWriter) : M unit :=
  emit (CsvHeader (target wr) (fieldnames_of wr)).

(** [writer.writerow(r)] for the [i]-th row of the table: the row is
    written, or the write raises and nothing of the row is. *)
Definition writerow (wr : DictWriter) (i : nat) (r : row) : M unit :=
  fun w =>
    match fs_write w (target wr) i r with
    | None => ([CsvRow (target wr) r], Ok tt)
    | Some e => ([], Raise e)
    end.

Fixpoint writerows_from (wr : DictWriter) (i : nat) (data : list row) : M unit :=
  match data with
  | [] => ret tt
  | r :: data' => writerow wr i r ;;; writerows_from wr (S i) data'
  end.

(** [writer.writerows(data)]: row after row, up to the first write that
    raises. *)
Definition writerows (wr : DictWriter) (data : list row) : M unit :=
  writerows_from wr 0 data.

(** [with open(filename, mode="w", newline="") as file: body(file)]: the
    file is closed on the way out, whether the body returns or raises. *)
Definition with_open {A} (filename : string) (body : fileobj -> M A) : M A :=
  fun w =>
    if fs_open w filename then
      let (t, o) := body (File filename) w in
      (FileOpen filename :: t ++ [FileClose filename], o)
    else ([], Raise OSError).

Definition py_print (r : row) : M unit := emit (Stdout r).

(** [logging.debug]: the record is emitted only after
    [logging.basicConfig(level=logging.DEBUG)]. *)
Definition logging_debug (debug : bool) (ids : value) : M unit :=
  if debug then emit (LogDebug ids) else ret tt.

Definition logging_error (e : exn) : M unit := emit (LogError e).

(** The truth value of [filename] in [if filename:]. *)
Definition truthy (filename : option string) : bool :=
  match filename with
  | Some s => negb (String.eqb s "")
  | None => false
  end.

(** ** The program *)

Definition BASE_URL := "https://eutils.ncbi.nlm.nih.gov/entrez/eutils/esearch.fcgi".
Definition FETCH_URL := "https://eutils.ncbi.nlm.nih.gov/entrez/eutils/esummary.fcgi".

Definition fetch_pubmed_ids (query : string) : M value :=
  let params := [("db", VStr "pubmed"); ("term", VStr query);
                 ("retmode", VStr "json"); ("retmax", VInt 100)] in
  response <- requests_get BASE_URL params ;;
  raise_for_status response ;;;
  j <- response_json response ;;
  esearchresult <- lift (py_get j "esearchresult" (VDict [])) ;;
  lift (py_get esearchresult "idlist" (VList [])).

Definition fetch_paper_details (pubmed_ids : value) : M value :=
  ids <- lift (str_join "," pubmed_ids) ;;
  let params := [("db", VStr "pubmed"); ("id", VStr ids); ("retmode", VStr "json")] in
  response <- requests_get FETCH_URL params ;;
  raise_for_status response ;;;
  j <- response_json response ;;
  lift (py_get j "result" (VDict [])).

Definition academic_pattern := "university|institute|college|lab".
Definition company_pattern := "pharma|biotech".

(** The affiliation text of one contributor entry. *)
Definition affiliation_of (author : value) : outcome value :=
  py_get author "affiliation" (VStr "").

Definition is_non_academic (author : value) : outcome bool :=
  aff <~ affiliation_of author ;;
  m <~ Re.search academic_pattern aff ;;
  Ok (negb m).

Definition is_company (author : value) : outcome bool :=
  aff <~ affiliation_of author ;;
  Re.search company_pattern aff.

Definition non_academic_authors_of (authors : list value) : outcome (list value) :=
  list_comp is_non_academic (fun author => py_getitem author "name") authors.

Definition company_affiliations_of (authors : list value) : outcome (list value) :=
  list_comp is_company affiliation_of authors.

Definition extract_paper_data (paper : value) : outcome row :=
  authors <~ py_get paper "authors" (VList []) ;;
  authors_seq <~ py_iter authors ;;
  non_academic_authors <~ non_academic_authors_of authors_seq ;;
  company_affiliations <~ company_affiliations_of authors_seq ;;
  uid <~ py_get paper "uid" (VStr "") ;;
  title <~ py_get paper "title" (VStr "") ;;
  pubdate <~ py_get paper "pubdate" (VStr "") ;;
  na <~ str_join ", " (VList non_academic_authors) ;;
  co <~ str_join ", " (VList company_affiliations) ;;
  elocationid <~ py_get paper "elocationid" (VStr "") ;;
  Ok (mkRow uid title pubdate na co elocationid).

Definition fieldnames : list string :=
  ["PubmedID"; "Title"; "Publication Date"; "Non-academic Author(s)";
   "Company Affiliation(s)"; "Corresponding Author Email"].

Definition save_to_csv (data : list row) (filename : option string) : M unit :=
  if truthy filename then
    with_open (match filename with Some s => s | None => "" end) (fun file =>
      writer <- csv_DictWriter file fieldnames ;;
      writeheader writer ;;;
      writerows writer data)
  else
    writer <- csv_DictWriter PrintFunction fieldnames ;;
    writeheader writer ;;;
    for_each py_print data.

(** Line 78: [[extract_paper_data(paper_details[pid]) for pid in pubmed_ids
    if pid in paper_details]].  The line is reached only after
    [",".join(pubmed_ids)] has returned, so the iteration yields the same str
    items. *)
Definition extracted_data_of (pubmed_ids paper_details : value) : outcome (list row) :=
  pids <~ py_str_items pubmed_ids ;;
  list_comp (py_contains paper_details)
            (fun pid => paper <~ py_getitem paper_details pid ;; extract_paper_data paper)
            pids.

(** The parsed command line: [args.query], [args.file], [args.debug]. *)
Record args := mkArgs {
  query : string;
  file : option string;
  debug : bool
}.

(** The body of the [try] block. *)
Definition pipeline (a : args) : M unit :=
  pubmed_ids <- fetch_pubmed_ids (query a) ;;
  logging_debug (debug a) pubmed_ids ;;;
  paper_details <- fetch_paper_details pubmed_ids ;;
  extracted_data <- lift (extracted_data_of pubmed_ids paper_details) ;;
  save_to_csv extracted_data (file a).

(** [main], from the parsed arguments on ([parse_args] has returned). *)
Definition main (a : args) : M unit :=
  (if debug a then emit LogConfig else ret tt) ;;;
  try_except (pipeline a) logging_error.

(** The status the interpreter exits with after [main()]: 0 when it returns,
    1 when an exception escapes it. *)
Definition exit_status (o : outcome unit) : Z :=
  match o with
  | Ok _ => 0
  | Raise _ => 1
  end.

(** ** Observations on a trace *)

Definition is_detail_request (e : event) : bool :=
  match e with
  | HttpGet url _ => String.eqb url FETCH_URL
  | _ => false
  end.

Definition is_error_record (e : event) : bool :=
  match e with
  | LogError _ => true
  | _ => false
  end.

Definition is_print (e : event) : bool :=
  match e with
  | Stdout _ => true
  | _ => false
  end.

Definition count (p : event -> bool) (t : trace) : nat := length (filter p t).

(** The rows written to the table during a run, in order. *)
Fixpoint rows_written (t : trace) : list row :=
  match t with
  | [] => []
  | CsvRow _ r :: t' => r :: rows_written t'
  | _ :: t' => rows_written t'
  end.

(** The rows of [data] that reach the file [f], counting from row [i]:
    those before the first row whose write raises; and how the writing
    ends. *)
Fixpoint written_rows (w : world) (f : string) (i : nat) (data : list row) : list row :=
  match data with
  | [] => []
  | r :: data' =>
      match fs_write w f i r with
      | None => r :: written_rows w f (S i) data'
      | Some _ => []
      end
  end.

Fixpoint write_outcome (w : world) (f : string) (i : nat) (data : list row)
    : outcome unit :=
  match data with
  | [] => Ok tt
  | r :: data' =>
      match fs_write w f i r with
      | None => write_outcome w f (S i) data'
      | Some e => Raise e
      end
  end.

(** The parameters of the two requests, as the program builds them. *)
Definition search_params (q : string) : list (string * value) :=
  [("db", VStr "pubmed"); ("term", VStr q); ("retmode", VStr "json");
   ("retmax", VInt 100)].

Definition detail_params (ids : string) : list (string * value) :=
  [("db", VStr "pubmed"); ("id", VStr ids); ("retmode", VStr "json")].

(** The prefix of a run's trace that [main] emits before the [try] block. *)
Definition config_events (a : args) : trace :=
  if debug a then [LogConfig] else [].

Definition debug_events (a : args) (ids : value) : trace :=
  if debug a then [LogDebug ids] else [].

(** The searched identifiers that are keys of the detail mapping, in search
    order. *)
Definition present_ids (d : list (string * value)) (ids : list string) : list string :=
  filter (dict_mem d) ids.

(** A failure in a run: a step of the pipeline raises [e] after the steps
    before it returned. *)
Inductive step_failure (a : args) (w : world) (e : exn) : Prop :=
| search_fails :
    snd (fetch_pubmed_ids (query a) w) = Raise e ->
    step_failure a w e
| detail_fetch_fails (pubmed_ids : value) :
    snd (fetch_pubmed_ids (query a) w) = Ok pubmed_ids ->
    snd (fetch_paper_details pubmed_ids w) = Raise e ->
    step_failure a w e
| classification_fails (pubmed_ids paper_details : value) :
    snd (fetch_pubmed_ids (query a) w) = Ok pubmed_ids ->
    snd (fetch_paper_details pubmed_ids w) = Ok paper_details ->
    extracted_data_of pubmed_ids paper_details = Raise e ->
    step_failure a w e
| table_write_fails (pubmed_ids paper_details : value) (extracted_data : list row) :
    snd (fetch_pubmed_ids (query a) w) = Ok pubmed_ids ->
    snd (fetch_paper_details pubmed_ids w) = Ok paper_details ->
    extracted_data_of pubmed_ids paper_details = Ok extracted_data ->
    snd (save_to_csv extracted_data (file a) w) = Raise e ->
    step_failure a w e.

(** ** Shapes of records *)

(** [d.get(k, default)] on the items of a dict. *)
Definition get_or (d : list (string * value)) (k : string) (default : value) : value :=
  match dict_lookup d k with Some v => v | None => default end.

(** Shapes on which the classifier is known to return: a contributor entry is
    a dict with a str name and, if any, a str affiliation; a record is a dict
    whose contributor list, if any, is a list of such entries. *)
Definition author_ok (author : value) : bool :=
  match author with
  | VDict d =>
      match dict_lookup d "name", dict_lookup d "affiliation" with
      | Some (VStr _), None => true
      | Some (VStr _), Some (VStr _) => true
      | _, _ => false
      end
  | _ => false
  end.

Definition paper_ok (paper : value) : bool :=
  match paper with
  | VDict d =>
      match dict_lookup d "authors" with
      | None => true
      | Some (VList l) => forallb author_ok l
      | Some _ => false
      end
  | _ => false
  end.

(** The share of one contributor in a row: the two joined columns are made
    of what the contributors [before] gave, then [own_names] and [own_comps],
    then what the contributors [after] gave. *)
Definition share_in_row (before after : list value)
    (own_names own_comps : list string) (r : row) : Prop :=
  exists nb na cb ca,
    non_academic_authors_of before = Ok (map VStr nb) /\
    non_academic_authors_of after = Ok (map VStr na) /\
    company_affiliations_of before = Ok (map VStr cb) /\
    company_affiliations_of after = Ok (map VStr ca) /\
    Non_academic_Authors r = String.concat ", " (nb ++ own_names ++ na) /\
    Company_Affiliations r = String.concat ", " (cb ++ own_comps ++ ca).

(** ** Sample records *)

Definition biotech_affiliation := "Dept. of Chemistry, ABC Biotech Inc.".
Definition stanford_affiliation := "Stanford University".

Definition author_stanford : list (string * value) :=
  [("name", VStr "Lee K"); ("authtype", VStr "Author");
   ("affiliation", VStr stanford_affiliation)].

Definition author_biotech : list (string * value) :=
  [("name", VStr "Rao S"); ("authtype", VStr "Author");
   ("affiliation", VStr biotech_affiliation)].

Definition author_unaffiliated : list (string * value) :=
  [("name", VStr "Okafor N"); ("authtype", VStr "Author")].

Definition author_blank : list (string * value) :=
  [("name", VStr "Diaz M"); ("affiliation", VStr "")].

Definition author_nameless : list (string * value) :=
  [("authtype", VStr "CollectiveName"); ("affiliation", VStr "Acme Pharma GmbH")].

Definition sample_authors : list value :=
  [VDict author_stanford; VDict author_biotech; VDict author_unaffiliated;
   VDict author_blank].

Definition sample_paper : list (string * value) :=
  [("uid", VStr "101"); ("pubdate", VStr "2024 Mar");
   ("title", VStr "Kinase inhibitors in practice");
   ("authors", VList sample_authors);
   ("elocationid", VStr "doi: 10.1000/x101")].

Definition sample_row : row :=
  mkRow (VStr "101") (VStr "Kinase inhibitors in practice") (VStr "2024 Mar")
        "Rao S, Okafor N, Diaz M" biotech_affiliation (VStr "doi: 10.1000/x101").

Definition nameless_paper : list (string * value) :=
  [("uid", VStr "102"); ("title", VStr "A consortium report");
   ("authors", VList [VDict author_stanford; VDict author_nameless])].

(** ** Sample worlds *)

(** The search service cannot be reached. *)
Definition world_down : world :=
  mkWorld (fun _ _ => Unreachable) (fun _ => true) (fun _ _ _ => None).

(** A service that answers a search with the identifiers [ids] and a detail
    request with the mapping [details]; every file can be opened and takes
    every row. *)
Definition world_of (ids : list string) (details : list (string * value)) : world :=
  mkWorld
    (fun url _ =>
       if String.eqb url BASE_URL
       then Responded 200
              (Some (VDict [("header", VDict [("type", VStr "esearch")]);
                            ("esearchresult",
                             VDict [("idlist", VList (map VStr ids))])]))
       else Responded 200 (Some (VDict [("result", VDict details)])))
    (fun _ => true) (fun _ _ _ => None).

(** The detail service answers every batch with a server error. *)
Definition world_detail_error : world :=
  mkWorld
    (fun url _ =>
       if String.eqb url BASE_URL
       then Responded 200
              (Some (VDict [("esearchresult", VDict [("idlist", VList [VStr "101"])])]))
       else Responded 503 None)
    (fun _ => true) (fun _ _ _ => None).

(** Both services answer, no file can be opened for writing. *)
Definition world_read_only : world :=
  mkWorld
    (fun url _ =>
       if String.eqb url BASE_URL
       then Responded 200
              (Some (VDict [("esearchresult", VDict [("idlist", VList [VStr "101"])])]))
       else Responded 200 (Some (VDict [("result", VDict [])])))
    (fun _ => false) (fun _ _ _ => None).

(** The search service answers with a page that is not JSON. *)
Definition world_not_json : world :=
  mkWorld (fun _ _ => Responded 200 None) (fun _ => true) (fun _ _ _ => None).

Definition ascii_only (s : string) : bool :=
  forallb (fun c => (N_of_ascii c <? 128)%N) (list_ascii_of_string s).

(** The services answer as in [world_of]; files open, in an encoding that
    has the ASCII characters only (tested here on the names column). *)
Definition world_ascii_files (ids : list string) (details : list (string * value))
    : world :=
  mkWorld (http_get (world_of ids details)) (fun _ => true)
          (fun _ _ r => if ascii_only (Non_academic_Authors r) then None
                        else Some UnicodeEncodeError).

(** A record with one contributor, whose name has a letter outside ASCII
    (u with diaeresis, two bytes). *)
Definition umlaut_paper : list (string * value) :=
  [("uid", VStr "104"); ("title", VStr "Dose finding");
   ("authors",
    VList [VDict [("name", VStr (String "M" (String.append (Re.bytes [195; 188]) "ller J")));
                  ("affiliation", VStr "Acme Pharma GmbH")]])].

Definition umlaut_details : list (string * value) :=
  [("101", VDict sample_paper); ("104", VDict umlaut_paper); ("103", VDict sample_paper)].

Definition umlaut_row : row :=
  mkRow (VStr "104") (VStr "Dose finding") (VStr "")
        (String "M" (String.append (Re.bytes [195; 188]) "ller J"))
        "Acme Pharma GmbH" (VStr "").

(** The search service answers with a client error, the detail service
    would answer well. *)
Definition world_search_limited : world :=
  mkWorld
    (fun url _ =>
       if String.eqb url BASE_URL
       then Responded 429 (Some (VDict [("error", VStr "API rate limit exceeded")]))
       else Responded 200 (Some (VDict [("result", VDict [])])))
    (fun _ => true) (fun _ _ _ => None).

(** Both services answer, the record of the one hit is there, and no file
    can be opened for writing. *)
Definition world_unwritable : world :=
  mkWorld (http_get (world_of ["101"] [("101", VDict sample_paper)]))
          (fun _ => false) (fun _ _ _ => None).

(** Affiliation texts with characters outside ASCII that the academic
    pattern matches: a long s in UNIVERSITY, a dotless i in University. *)
Definition long_s_affiliation : string :=
  String.append "UNIVER" (String.append (Re.bytes [197; 191]) "ITY OF LEEDS").

Definition dotless_i_affiliation : string :=
  String.append "Un" (String.append (Re.bytes [196; 177])
    (String.append "vers" (String.append (Re.bytes [196; 177]) "ty of Ankara"))).

Definition args_to_file : args := mkArgs "kinase inhibitor" (Some "out.csv") false.
Definition args_to_console : args := mkArgs "kinase inhibitor" None true.

(** A detail mapping whose only record carries another uid than its key. *)
Definition mismatched_details : list (string * value) :=
  [("101", VDict [("uid", VStr "999"); ("title", VStr "Kinase inhibitors in practice");
                  ("authors", VList [VDict author_biotech])])].

(** A detail mapping that lacks the second of three searched identifiers. *)
Definition partial_details : list (string * value) :=
  [("101", VDict sample_paper);
   ("103", VDict [("uid", VStr "103"); ("title", VStr "A field survey")])].

Definition searched_ids : list string := ["101"; "102"; "103"].

Definition world_partial : world := world_of searched_ids partial_details.

(** ** Further observations and shapes *)

Definition is_request (e : event) : bool :=
  match e with
  | HttpGet _ _ => true
  | _ => false
  end.

Definition is_file_event (e : event) : bool :=
  match e with
  | FileOpen _ | FileClose _ | CsvHeader _ _ | CsvRow _ _ => true
  | _ => false
  end.

Definition is_debug_record (e : event) : bool :=
  match e with
  | LogConfig | LogDebug _ => true
  | _ => false
  end.

(** A trace without the records of the debug mode. *)
Definition without_debug_records (t : trace) : trace :=
  filter (fun e => negb (is_debug_record e)) t.

(** A status that [raise_for_status] lets through. *)
Definition status_ok (st : Z) : bool := negb ((400 <=? st)%Z && (st <? 600)%Z).

(** The contributor entries on which lines 36, 37 and the two joins go
    through: a dict whose affiliation, if any, is a str, and whose name is a
    str unless the affiliation matches the academic pattern (the name of such
    an entry is never read). *)
Definition author_accepted (author : value) : bool :=
  match author with
  | VDict d =>
      match get_or d "affiliation" (VStr "") with
      | VStr aff =>
          Re.search_str academic_pattern aff ||
          match dict_lookup d "name" with
          | Some (VStr _) => true
          | _ => false
          end
      | _ => false
      end
  | _ => false
  end.

Definition paper_accepted (paper : value) : bool :=
  match paper with
  | VDict d =>
      match py_iter (get_or d "authors" (VList [])) with
      | Ok authors => forallb author_accepted authors
      | Raise _ => false
      end
  | _ => false
  end.

(** The name and the affiliation text of a well-shaped contributor entry. *)
Definition author_name (author : value) : string :=
  match author with
  | VDict d => match dict_lookup d "name" with Some (VStr s) => s | _ => "" end
  | _ => ""
  end.

Definition author_affiliation (author : value) : string :=
  match author with
  | VDict d => match dict_lookup d "affiliation" with Some (VStr s) => s | _ => "" end
  | _ => ""
  end.

Definition non_academic (author : value) : bool :=
  negb (Re.search_str academic_pattern (author_affiliation author)).

Definition company (author : value) : bool :=
  Re.search_str company_pattern (author_affiliation author).

Fixpoint lower_str (s : string) : string :=
  match s with
  | EmptyString => EmptyString
  | String c s' => String (Re.lower c) (lower_str s')
  end.

(** The search service answers with a client error and a JSON body; the
    detail service likewise. *)
Definition world_rate_limited : world :=
  mkWorld
    (fun _ _ => Responded 429 (Some (VDict [("error", VStr "API rate limit exceeded")])))
    (fun _ => true) (fun _ _ _ => None).

(** The services answer with JSON objects that lack the expected keys. *)
Definition world_bare : world :=
  mkWorld (fun _ _ => Responded 200 (Some (VDict [("header", VDict [])])))
          (fun _ => true) (fun _ _ _ => None).

(** Two records under two searched identifiers, the first of which cannot
    be classified. *)
Definition half_broken_details : list (string * value) :=
  [("102", VDict nameless_paper); ("101", VDict sample_paper)].

Definition world_half_broken : world := world_of ["102"; "101"] half_broken_details.

(** * Properties *)

(** ** The error monad and comprehensions *)

Lemma obind_Ok_inv {A B} (m : outcome A) (f : A -> outcome B) (b : B) :
  obind m f = Ok b -> exists a, m = Ok a /\ f a = Ok b.
Proof.
  destruct m as [a|e]; simpl; intros H; [eauto | discriminate].
Qed.

Lemma list_comp_app {A B} (cond : A -> outcome bool) (elt : A -> outcome B)
    (l1 l2 : list A) :
  list_comp cond elt (l1 ++ l2) =
  (r1 <~ list_comp cond elt l1 ;; r2 <~ list_comp cond elt l2 ;; Ok (r1 ++ r2)).
Proof.
  induction l1 as [|x l1 IH]; simpl.
  - destruct (list_comp cond elt l2); reflexivity.
  - destruct (cond x) as [[|]|e]; simpl; try reflexivity.
    + destruct (elt x) as [y|e]; simpl; try reflexivity.
      rewrite IH.
      destruct (list_comp cond elt l1) as [r1|e]; simpl; try reflexivity.
      destruct (list_comp cond elt l2) as [r2|e]; reflexivity.
    + exact IH.
Qed.

Lemma list_comp_app_inv {A B} (cond : A -> outcome bool) (elt : A -> outcome B)
    (l1 l2 : list A) (r : list B) :
  list_comp cond elt (l1 ++ l2) = Ok r ->
  exists r1 r2, list_comp cond elt l1 = Ok r1 /\
                list_comp cond elt l2 = Ok r2 /\ r = r1 ++ r2.
Proof.
  rewrite list_comp_app. intros H.
  apply obind_Ok_inv in H as (r1 & H1 & H).
  apply obind_Ok_inv in H as (r2 & H2 & H).
  injection H as <-. eauto.
Qed.

(** A comprehension whose condition cannot raise keeps exactly the elements
    of the filtered list. *)
Lemma list_comp_filter {A B} (p : A -> bool) (elt : A -> outcome B) (l : list A) :
  list_comp (fun x => Ok (p x)) elt l =
  list_comp (fun x => Ok true) elt (filter p l).
Proof.
  induction l as [|x l IH]; simpl; [reflexivity|].
  destruct (p x); simpl; [|exact IH].
  destruct (elt x); simpl; [|reflexivity]. now rewrite IH.
Qed.

Lemma list_comp_all_length {A B} (elt : A -> outcome B) (l : list A) (r : list B) :
  list_comp (fun x => Ok true) elt l = Ok r -> length r = length l.
Proof.
  revert r. induction l as [|x l IH]; simpl; intros r H.
  - now injection H as <-.
  - apply obind_Ok_inv in H as (y & _ & H).
    apply obind_Ok_inv in H as (r' & Hr' & H).
    injection H as <-. simpl. f_equal. now apply IH.
Qed.

Lemma list_comp_all_Raise {A B} (elt : A -> outcome B) (l : list A) (e : exn) :
  list_comp (fun x => Ok true) elt l = Raise e ->
  exists x, In x l /\ elt x = Raise e.
Proof.
  induction l as [|x l IH]; simpl; [discriminate|].
  destruct (elt x) as [y|e'] eqn:Hx; simpl.
  - destruct (list_comp _ elt l) as [r|e'] eqn:Hl; simpl; [discriminate|].
    intros H. injection H as ->.
    destruct (IH eq_refl) as (x' & Hin & Hx'). eauto.
  - intros H. injection H as ->. eauto.
Qed.

Lemma all_str_map_VStr (l : list string) : all_str (map VStr l) = Ok l.
Proof.
  induction l as [|s l IH]; simpl; [reflexivity|]. now rewrite IH.
Qed.

Lemma all_str_inv (l : list value) (r : list string) :
  all_str l = Ok r -> l = map VStr r.
Proof.
  revert r. induction l as [|v l IH]; simpl; intros r H.
  - now injection H as <-.
  - destruct v; try discriminate.
    apply obind_Ok_inv in H as (r' & Hr' & H). injection H as <-.
    simpl. f_equal. now apply IH.
Qed.

Lemma map_VStr_app_inv (l1 l2 : list value) (r : list string) :
  l1 ++ l2 = map VStr r ->
  exists r1 r2, l1 = map VStr r1 /\ l2 = map VStr r2 /\ r = r1 ++ r2.
Proof.
  revert r. induction l1 as [|v l1 IH]; simpl; intros r H.
  - exists [], r. auto.
  - destruct r as [|s r]; [discriminate|]. simpl in H.
    injection H as -> H. destruct (IH _ H) as (r1 & r2 & -> & -> & ->).
    exists (s :: r1), r2. auto.
Qed.

(** ** The classifier *)

(** What a returned row was computed from. *)
Lemma extract_paper_data_inv (paper : list (string * value)) (authors : list value)
    (r : row) :
  dict_lookup paper "authors" = Some (VList authors) ->
  extract_paper_data (VDict paper) = Ok r ->
  exists names comps,
    non_academic_authors_of authors = Ok (map VStr names) /\
    company_affiliations_of authors = Ok (map VStr comps) /\
    r = mkRow (get_or paper "uid" (VStr "")) (get_or paper "title" (VStr ""))
              (get_or paper "pubdate" (VStr ""))
              (String.concat ", " names) (String.concat ", " comps)
              (get_or paper "elocationid" (VStr "")).
Proof.
  intros Ha. unfold extract_paper_data, py_get. rewrite Ha. simpl.
  destruct (non_academic_authors_of authors) as [na|e]; simpl; [|discriminate].
  destruct (company_affiliations_of authors) as [co|e]; simpl; [|discriminate].
  unfold str_join, py_str_items. simpl.
  destruct (all_str na) as [names|e] eqn:Hna; simpl; [|discriminate].
  destruct (all_str co) as [comps|e] eqn:Hco; simpl; [|discriminate].
  intros H. injection H as <-.
  exists names, comps. apply all_str_inv in Hna, Hco. subst. auto.
Qed.

(** The two contributor lists of a record split at any contributor: what
    comes before, the contributor's own share, what comes after. *)
Lemma classification_splits (paper : list (string * value))
    (before after : list value) (author : value) (r : row) :
  dict_lookup paper "authors" = Some (VList (before ++ author :: after)) ->
  extract_paper_data (VDict paper) = Ok r ->
  exists nb own_n na cb own_c ca,
    non_academic_authors_of before = Ok (map VStr nb) /\
    non_academic_authors_of [author] = Ok (map VStr own_n) /\
    non_academic_authors_of after = Ok (map VStr na) /\
    company_affiliations_of before = Ok (map VStr cb) /\
    company_affiliations_of [author] = Ok (map VStr own_c) /\
    company_affiliations_of after = Ok (map VStr ca) /\
    Non_academic_Authors r = String.concat ", " (nb ++ own_n ++ na) /\
    Company_Affiliations r = String.concat ", " (cb ++ own_c ++ ca).
Proof.
  intros Ha Hr.
  destruct (extract_paper_data_inv _ _ _ Ha Hr) as (names & comps & Hn & Hc & ->).
  change (before ++ author :: after) with (before ++ [author] ++ after) in Hn, Hc.
  unfold non_academic_authors_of, company_affiliations_of in *.
  apply list_comp_app_inv in Hn as (n1 & n23 & Hn1 & Hn & En).
  apply list_comp_app_inv in Hn as (n2 & n3 & Hn2 & Hn3 & ->).
  apply list_comp_app_inv in Hc as (c1 & c23 & Hc1 & Hc & Ec).
  apply list_comp_app_inv in Hc as (c2 & c3 & Hc2 & Hc3 & ->).
  symmetry in En, Ec.
  apply map_VStr_app_inv in En as (nb & n' & -> & En & ->).
  apply map_VStr_app_inv in En as (own_n & na & -> & -> & ->).
  apply map_VStr_app_inv in Ec as (cb & c' & -> & Ec & ->).
  apply map_VStr_app_inv in Ec as (own_c & ca & -> & -> & ->).
  exists nb, own_n, na, cb, own_c, ca. simpl. auto 10.
Qed.

(** The share of one contributor whose affiliation text is the str [aff]
    (the empty str when the entry has no affiliation). *)
Lemma own_share (author : list (string * value)) (aff : string) :
  get_or author "affiliation" (VStr "") = VStr aff ->
  non_academic_authors_of [VDict author] =
    (if Re.search_str academic_pattern aff then Ok []
     else name <~ py_getitem (VDict author) "name" ;; Ok [name]) /\
  company_affiliations_of [VDict author] =
    (if Re.search_str company_pattern aff then Ok [VStr aff] else Ok []).
Proof.
  intros H.
  unfold non_academic_authors_of, company_affiliations_of, list_comp,
    is_non_academic, is_company, affiliation_of, py_get.
  fold (get_or author "affiliation" (VStr "")). rewrite H. simpl.
  split.
  - destruct (Re.search_str academic_pattern aff); simpl; [reflexivity|].
    destruct (dict_lookup author "name"); reflexivity.
  - destruct (Re.search_str company_pattern aff); reflexivity.
Qed.

Lemma singleton_name (author : list (string * value)) (own : list string) :
  (name <~ py_getitem (VDict author) "name" ;; Ok [name]) = Ok (map VStr own) ->
  exists name, dict_lookup author "name" = Some (VStr name) /\ own = [name].
Proof.
  simpl. destruct (dict_lookup author "name") as [v|]; simpl; [|discriminate].
  intros H. injection H as H.
  destruct own as [|s [|s' own]]; simpl in H; try discriminate.
  injection H as ->. eauto.
Qed.

Lemma map_VStr_nil (l : list string) : [] = map VStr l -> l = [].
Proof. destruct l; [reflexivity | discriminate]. Qed.

Lemma map_VStr_singleton (s : string) (l : list string) :
  [VStr s] = map VStr l -> l = [s].
Proof.
  destruct l as [|s' [|s'' l]]; simpl; try discriminate.
  intros H. now injection H as ->.
Qed.

Lemma non_academic_authors_of_app (l1 l2 : list value) :
  non_academic_authors_of (l1 ++ l2) =
  (r1 <~ non_academic_authors_of l1 ;; r2 <~ non_academic_authors_of l2 ;;
   Ok (r1 ++ r2)).
Proof. apply list_comp_app. Qed.

Lemma company_affiliations_of_app (l1 l2 : list value) :
  company_affiliations_of (l1 ++ l2) =
  (r1 <~ company_affiliations_of l1 ;; r2 <~ company_affiliations_of l2 ;;
   Ok (r1 ++ r2)).
Proof. apply list_comp_app. Qed.

Lemma contributors_classify (authors : list value) :
  forallb author_ok authors = true ->
  exists names comps,
    non_academic_authors_of authors = Ok (map VStr names) /\
    company_affiliations_of authors = Ok (map VStr comps).
Proof.
  induction authors as [|a authors IH]; simpl; intros H.
  - exists [], []. auto.
  - apply andb_true_iff in H as [Ha H].
    destruct (IH H) as (names & comps & Hn & Hc).
    change (a :: authors) with ([a] ++ authors).
    rewrite non_academic_authors_of_app, company_affiliations_of_app, Hn, Hc.
    destruct a as [| | | | |l|d]; try discriminate. simpl in Ha.
    destruct (dict_lookup d "name") as [[| | | |name| |]|] eqn:Hname;
      try discriminate.
    assert (exists aff, get_or d "affiliation" (VStr "") = VStr aff) as [aff Haff].
    { unfold get_or.
      destruct (dict_lookup d "affiliation") as [[| | | |aff| |]|];
        try discriminate; eauto. }
    destruct (own_share d aff Haff) as [-> ->]. simpl. rewrite Hname.
    destruct (Re.search_str academic_pattern aff),
             (Re.search_str company_pattern aff); simpl.
    + exists names, (aff :: comps). auto.
    + exists names, comps. auto.
    + exists (name :: names), (aff :: comps). auto.
    + exists (name :: names), comps. auto.
Qed.

(** On a well-shaped record the classifier returns a row. *)
Lemma extract_paper_data_returns (paper : value) :
  paper_ok paper = true -> exists r, extract_paper_data paper = Ok r.
Proof.
  destruct paper as [| | | | |l|d]; try discriminate. simpl.
  unfold extract_paper_data, py_get.
  destruct (dict_lookup d "authors") as [[| | | | |authors|]|];
    try discriminate; simpl.
  - intros H. destruct (contributors_classify _ H) as (names & comps & -> & ->).
    simpl. unfold str_join, py_str_items. simpl.
    rewrite !all_str_map_VStr. simpl. eauto.
  - intros _. eauto.
Qed.

(** C6.  A contributor entry whose affiliation is absent or the empty
    string counts as non-academic and not as company-affiliated: in the row
    returned for the record, the contributor's name stands in the
    non-academic names column, between the names given by the contributors
    before and after, and the company-affiliations column holds nothing of
    this contributor. *)
Theorem missing_affiliation_counts_as_non_academic
    (paper author : list (string * value)) (before after : list value) (r : row) :
  dict_lookup paper "authors" = Some (VList (before ++ VDict author :: after)) ->
  dict_lookup author "affiliation" = None \/
    dict_lookup author "affiliation" = Some (VStr "") ->
  extract_paper_data (VDict paper) = Ok r ->
  exists name,
    dict_lookup author "name" = Some (VStr name) /\
    share_in_row before after [name] [] r.
Proof.
  intros Ha Haff Hr.
  destruct (classification_splits _ _ _ _ _ Ha Hr)
    as (nb & own_n & na & cb & own_c & ca & Hnb & Hn & Hna & Hcb & Hc & Hca & En & Ec).
  assert (get_or author "affiliation" (VStr "") = VStr "") as Hg.
  { unfold get_or. destruct Haff as [-> | ->]; reflexivity. }
  destruct (own_share author "" Hg) as [Hn' Hc'].
  rewrite Hn' in Hn. rewrite Hc' in Hc.
  change (Re.search_str academic_pattern "") with false in Hn.
  change (Re.search_str company_pattern "") with false in Hc.
  cbv iota in Hn, Hc.
  apply singleton_name in Hn as (name & Hname & ->).
  injection Hc as Hc. apply map_VStr_nil in Hc as ->.
  exists name. split; [exact Hname|].
  exists nb, na, cb, ca. auto 10.
Qed.

(** C7.  A contributor whose affiliation is
    "Dept. of Chemistry, ABC Biotech Inc." has the full affiliation string in
    the company-affiliations column and their name in the non-academic names
    column of the row returned for the record. *)
Theorem biotech_affiliation_counts_twice
    (paper author : list (string * value)) (before after : list value) (r : row) :
  dict_lookup paper "authors" = Some (VList (before ++ VDict author :: after)) ->
  dict_lookup author "affiliation" = Some (VStr "Dept. of Chemistry, ABC Biotech Inc.") ->
  extract_paper_data (VDict paper) = Ok r ->
  exists name,
    dict_lookup author "name" = Some (VStr name) /\
    share_in_row before after [name] ["Dept. of Chemistry, ABC Biotech Inc."] r.
Proof.
  intros Ha Haff Hr.
  destruct (classification_splits _ _ _ _ _ Ha Hr)
    as (nb & own_n & na & cb & own_c & ca & Hnb & Hn & Hna & Hcb & Hc & Hca & En & Ec).
  assert (get_or author "affiliation" (VStr "") = VStr biotech_affiliation) as Hg.
  { unfold get_or. rewrite Haff. reflexivity. }
  destruct (own_share author _ Hg) as [Hn' Hc'].
  rewrite Hn' in Hn. rewrite Hc' in Hc.
  change (Re.search_str academic_pattern biotech_affiliation) with false in Hn.
  change (Re.search_str company_pattern biotech_affiliation) with true in Hc.
  cbv iota in Hn, Hc.
  apply singleton_name in Hn as (name & Hname & ->).
  injection Hc as Hc. apply map_VStr_singleton in Hc as ->.
  exists name. split; [exact Hname|].
  exists nb, na, cb, ca. auto 10.
Qed.

(** C8.  A contributor whose affiliation is "Stanford University" gives
    nothing to either column of the row returned for the record: neither
    their name to the non-academic names column nor their affiliation to the
    company-affiliations column. *)
Theorem stanford_affiliation_counts_nowhere
    (paper author : list (string * value)) (before after : list value) (r : row) :
  dict_lookup paper "authors" = Some (VList (before ++ VDict author :: after)) ->
  dict_lookup author "affiliation" = Some (VStr "Stanford University") ->
  extract_paper_data (VDict paper) = Ok r ->
  share_in_row before after [] [] r.
Proof.
  intros Ha Haff Hr.
  destruct (classification_splits _ _ _ _ _ Ha Hr)
    as (nb & own_n & na & cb & own_c & ca & Hnb & Hn & Hna & Hcb & Hc & Hca & En & Ec).
  assert (get_or author "affiliation" (VStr "") = VStr stanford_affiliation) as Hg.
  { unfold get_or. rewrite Haff. reflexivity. }
  destruct (own_share author _ Hg) as [Hn' Hc'].
  rewrite Hn' in Hn. rewrite Hc' in Hc.
  change (Re.search_str academic_pattern stanford_affiliation) with true in Hn.
  change (Re.search_str company_pattern stanford_affiliation) with false in Hc.
  cbv iota in Hn, Hc.
  injection Hn as Hn. apply map_VStr_nil in Hn as ->.
  injection Hc as Hc. apply map_VStr_nil in Hc as ->.
  exists nb, na, cb, ca. auto 10.
Qed.

Lemma missing_affiliation_witness :
  dict_lookup sample_paper "authors" =
    Some (VList ([VDict author_stanford; VDict author_biotech]
                 ++ VDict author_unaffiliated :: [VDict author_blank])) /\
  dict_lookup author_unaffiliated "affiliation" = None /\
  extract_paper_data (VDict sample_paper) = Ok sample_row /\
  exists name,
    dict_lookup author_unaffiliated "name" = Some (VStr name) /\
    share_in_row [VDict author_stanford; VDict author_biotech] [VDict author_blank]
                 [name] [] sample_row.
Proof.
  split; [reflexivity|]. split; [reflexivity|]. split; [reflexivity|].
  apply (missing_affiliation_counts_as_non_academic sample_paper author_unaffiliated
           [VDict author_stanford; VDict author_biotech] [VDict author_blank]
           sample_row).
  - reflexivity.
  - left. reflexivity.
  - reflexivity.
Defined.

Lemma biotech_affiliation_witness :
  dict_lookup sample_paper "authors" =
    Some (VList ([VDict author_stanford]
                 ++ VDict author_biotech
                 :: [VDict author_unaffiliated; VDict author_blank])) /\
  dict_lookup author_biotech "affiliation" =
    Some (VStr "Dept. of Chemistry, ABC Biotech Inc.") /\
  extract_paper_data (VDict sample_paper) = Ok sample_row /\
  exists name,
    dict_lookup author_biotech "name" = Some (VStr name) /\
    share_in_row [VDict author_stanford]
                 [VDict author_unaffiliated; VDict author_blank]
                 [name] ["Dept. of Chemistry, ABC Biotech Inc."] sample_row.
Proof.
  split; [reflexivity|]. split; [reflexivity|]. split; [reflexivity|].
  apply (biotech_affiliation_counts_twice sample_paper author_biotech
           [VDict author_stanford]
           [VDict author_unaffiliated; VDict author_blank] sample_row);
    reflexivity.
Defined.

Lemma stanford_affiliation_witness :
  dict_lookup sample_paper "authors" =
    Some (VList ([] ++ VDict author_stanford
                 :: [VDict author_biotech; VDict author_unaffiliated;
                     VDict author_blank])) /\
  dict_lookup author_stanford "affiliation" = Some (VStr "Stanford University") /\
  extract_paper_data (VDict sample_paper) = Ok sample_row /\
  share_in_row [] [VDict author_biotech; VDict author_unaffiliated; VDict author_blank]
               [] [] sample_row.
Proof.
  split; [reflexivity|]. split; [reflexivity|]. split; [reflexivity|].
  apply (stanford_affiliation_counts_nowhere sample_paper author_stanford []
           [VDict author_biotech; VDict author_unaffiliated; VDict author_blank]
           sample_row);
    reflexivity.
Defined.

(** C2.  The classifier does not return a row for every record: the name of
    a non-academic contributor is read with [author["name"]], without a
    default, and a record whose contributor entry has no name makes the
    classifier raise [KeyError]. *)
Theorem extract_paper_data_raises_without_name :
  paper_ok (VDict nameless_paper) = false /\
  extract_paper_data (VDict nameless_paper) = Raise (KeyError "name").
Proof. split; reflexivity. Qed.

(** ** The steps of a run *)


Lemma fetch_pubmed_ids_trace (q : string) (w : world) :
  fst (fetch_pubmed_ids q w) = [HttpGet BASE_URL (search_params q)].
Proof.
  unfold fetch_pubmed_ids, bind, requests_get, raise_for_status, response_json, lift.
  fold (search_params q).
  destruct (http_get w BASE_URL (search_params q)) as [|st b]; simpl; [reflexivity|].
  destruct ((400 <=? st)%Z && (st <? 600)%Z); simpl; [reflexivity|].
  destruct b as [j|]; simpl; [|reflexivity].
  destruct (py_get j "esearchresult" (VDict [])); reflexivity.
Qed.

(** The detail request is sent as soon as the identifiers join, whatever
    their number. *)
Lemma fetch_paper_details_trace (pubmed_ids : value) (w : world) :
  fst (fetch_paper_details pubmed_ids w) =
  match str_join "," pubmed_ids with
  | Ok ids => [HttpGet FETCH_URL (detail_params ids)]
  | Raise _ => []
  end.
Proof.
  unfold fetch_paper_details, bind, lift.
  destruct (str_join "," pubmed_ids) as [ids|e]; simpl; [|reflexivity].
  fold (detail_params ids).
  unfold requests_get, raise_for_status, response_json.
  destruct (http_get w FETCH_URL (detail_params ids)) as [|st b]; simpl; [reflexivity|].
  destruct ((400 <=? st)%Z && (st <? 600)%Z); simpl; [reflexivity|].
  destruct b as [j|]; reflexivity.
Qed.

Lemma fetch_paper_details_Ok_joins (pubmed_ids details : value) (w : world) :
  snd (fetch_paper_details pubmed_ids w) = Ok details ->
  exists ids, str_join "," pubmed_ids = Ok ids.
Proof.
  unfold fetch_paper_details, bind, lift.
  destruct (str_join "," pubmed_ids) as [ids|e]; simpl; [eauto | discriminate].
Qed.

Lemma writerows_from_run (wr : DictWriter) (i : nat) (data : list row) (w : world) :
  writerows_from wr i data w =
  (map (CsvRow (target wr)) (written_rows w (target wr) i data),
   write_outcome w (target wr) i data).
Proof.
  revert i. induction data as [|r data IH]; intros i; [reflexivity|].
  cbn [writerows_from written_rows write_outcome]. unfold bind at 1.
  unfold writerow at 1.
  destruct (fs_write w (target wr) i r) as [e|]; [reflexivity|].
  rewrite IH. reflexivity.
Qed.

(** The two branches of the table writer. *)
Lemma save_to_csv_run (data : list row) (filename : option string) (w : world) :
  save_to_csv data filename w =
  match filename with
  | Some f =>
      if String.eqb f "" then ([], Raise TypeError)
      else if fs_open w f
           then (FileOpen f :: CsvHeader f fieldnames
                 :: map (CsvRow f) (written_rows w f 0 data) ++ [FileClose f],
                 write_outcome w f 0 data)
           else ([], Raise OSError)
  | None => ([], Raise TypeError)
  end.
Proof.
  unfold save_to_csv. destruct filename as [f|]; simpl; [|reflexivity].
  destruct (String.eqb f ""); simpl; [reflexivity|].
  unfold with_open. destruct (fs_open w f); [|reflexivity].
  unfold bind, csv_DictWriter, ret, writeheader, emit, writerows. simpl.
  rewrite writerows_from_run. reflexivity.
Qed.

Ltac trace_eq :=
  repeat first [rewrite <- app_assoc | rewrite app_nil_r | progress simpl];
  reflexivity.

(** A run, step by step: the first step that raises ends it with one error
    record; otherwise the trace is that of the four steps. *)
Lemma main_run (a : args) (w : world) :
  main a w =
  match fetch_pubmed_ids (query a) w with
  | (t1, Raise e) => (config_events a ++ t1 ++ [LogError e], Ok tt)
  | (t1, Ok pubmed_ids) =>
    match fetch_paper_details pubmed_ids w with
    | (t2, Raise e) =>
        (config_events a ++ t1 ++ debug_events a pubmed_ids ++ t2 ++ [LogError e],
         Ok tt)
    | (t2, Ok paper_details) =>
      match extracted_data_of pubmed_ids paper_details with
      | Raise e =>
          (config_events a ++ t1 ++ debug_events a pubmed_ids ++ t2 ++ [LogError e],
           Ok tt)
      | Ok extracted_data =>
        match save_to_csv extracted_data (file a) w with
        | (t3, Raise e) =>
            (config_events a ++ t1 ++ debug_events a pubmed_ids ++ t2 ++ t3
             ++ [LogError e], Ok tt)
        | (t3, Ok _) =>
            (config_events a ++ t1 ++ debug_events a pubmed_ids ++ t2 ++ t3, Ok tt)
        end
      end
    end
  end.
Proof.
  unfold main, pipeline, try_except, bind, logging_debug, logging_error, lift,
    config_events, debug_events.
  destruct (fetch_pubmed_ids (query a) w) as [t1 [pubmed_ids|e]];
    [|destruct (debug a); reflexivity].
  destruct (fetch_paper_details pubmed_ids w) as [t2 [paper_details|e]];
    [|destruct (debug a); trace_eq].
  destruct (extracted_data_of pubmed_ids paper_details) as [extracted_data|e];
    [|destruct (debug a); trace_eq].
  destruct (save_to_csv extracted_data (file a) w) as [t3 [[]|e]];
    destruct (debug a); trace_eq.
Qed.

(** ** Counting events *)

Lemma count_app (p : event -> bool) (t1 t2 : trace) :
  count p (t1 ++ t2) = count p t1 + count p t2.
Proof. unfold count. now rewrite filter_app, length_app. Qed.

Lemma count_rows (p : event -> bool) (f : string) (data : list row) :
  (forall r, p (CsvRow f r) = false) -> count p (map (CsvRow f) data) = 0.
Proof.
  intros H. unfold count. induction data as [|r data IH]; simpl; [reflexivity|].
  now rewrite H.
Qed.

Lemma count_config (p : event -> bool) (a : args) :
  p LogConfig = false -> count p (config_events a) = 0.
Proof. intros H. unfold config_events. destruct (debug a); simpl; unfold count; simpl; now rewrite ?H. Qed.

Lemma count_debug (p : event -> bool) (a : args) (ids : value) :
  p (LogDebug ids) = false -> count p (debug_events a ids) = 0.
Proof. intros H. unfold debug_events. destruct (debug a); unfold count; simpl; now rewrite ?H. Qed.

(** No step writes an error record of its own. *)
Lemma search_logs_no_error (q : string) (w : world) :
  count is_error_record (fst (fetch_pubmed_ids q w)) = 0.
Proof. rewrite fetch_pubmed_ids_trace. reflexivity. Qed.

Lemma detail_fetch_logs_no_error (ids : value) (w : world) :
  count is_error_record (fst (fetch_paper_details ids w)) = 0.
Proof.
  rewrite fetch_paper_details_trace. destruct (str_join "," ids); reflexivity.
Qed.

Lemma table_write_logs_no_error (data : list row) (filename : option string) (w : world) :
  count is_error_record (fst (save_to_csv data filename w)) = 0.
Proof.
  rewrite save_to_csv_run. destruct filename as [f|]; [|reflexivity].
  destruct (String.eqb f ""); [reflexivity|].
  destruct (fs_open w f); [|reflexivity]. simpl.
  change (count is_error_record
            (map (CsvRow f) (written_rows w f 0 data) ++ [FileClose f]) = 0).
  rewrite count_app, count_rows; reflexivity.
Qed.

Lemma main_returns (a : args) (w : world) : snd (main a w) = Ok tt.
Proof.
  rewrite main_run.
  destruct (fetch_pubmed_ids (query a) w) as [t1 [ids|e]]; [|reflexivity].
  destruct (fetch_paper_details ids w) as [t2 [details|e]]; [|reflexivity].
  destruct (extracted_data_of ids details) as [rows|e]; [|reflexivity].
  destruct (save_to_csv rows (file a) w) as [t3 [u|e]]; reflexivity.
Qed.

(** Name the trace and the outcome of a step, given the hypothesis on its
    outcome, and record that the step wrote no error record. *)
Ltac enter_search a w t1 :=
  let o := fresh "o" in let E := fresh "E" in
  pose proof (search_logs_no_error (query a) w) as C1;
  destruct (fetch_pubmed_ids (query a) w) as [t1 o] eqn:E;
  match goal with H : snd (t1, o) = _ |- _ => simpl in H; subst o end;
  simpl in C1.

Ltac enter_detail_fetch ids w t2 :=
  let o := fresh "o" in let E := fresh "E" in
  pose proof (detail_fetch_logs_no_error ids w) as C2;
  destruct (fetch_paper_details ids w) as [t2 o] eqn:E;
  match goal with H : snd (t2, o) = _ |- _ => simpl in H; subst o end;
  simpl in C2.

Ltac enter_table_write rows a w t3 :=
  let o := fresh "o" in let E := fresh "E" in
  pose proof (table_write_logs_no_error rows (file a) w) as C3;
  destruct (save_to_csv rows (file a) w) as [t3 o] eqn:E;
  match goal with H : snd (t3, o) = _ |- _ => simpl in H; subst o end;
  simpl in C3.

(** C9.  Whichever step of a run raises (the search, the detail fetch, the
    classification or the table write), [main] returns normally, the trace of
    the run holds exactly one error record, and that record, carrying the
    exception, is the last event of the run. *)
Theorem main_catches_every_failure (a : args) (w : world) (e : exn) :
  step_failure a w e ->
  snd (main a w) = Ok tt /\
  count is_error_record (fst (main a w)) = 1 /\
  exists t, fst (main a w) = t ++ [LogError e].
Proof.
  intros H. split; [apply main_returns|].
  rewrite main_run.
  destruct H as [H1 | ids H1 H2 | ids details H1 H2 H3 | ids details rows H1 H2 H3 H4];
    enter_search a w t1; try enter_detail_fetch ids w t2; try rewrite H3;
    try enter_table_write rows a w t3; simpl.
  - split.
    + rewrite !count_app, count_config, C1; reflexivity.
    + exists (config_events a ++ t1). now rewrite <- app_assoc.
  - split.
    + rewrite !count_app, count_config, count_debug, C1, C2; reflexivity.
    + exists (config_events a ++ t1 ++ debug_events a ids ++ t2).
      now rewrite <- !app_assoc.
  - split.
    + rewrite !count_app, count_config, count_debug, C1, C2; reflexivity.
    + exists (config_events a ++ t1 ++ debug_events a ids ++ t2).
      now rewrite <- !app_assoc.
  - split.
    + rewrite !count_app, count_config, count_debug, C1, C2, C3; reflexivity.
    + exists (config_events a ++ t1 ++ debug_events a ids ++ t2 ++ t3).
      now rewrite <- !app_assoc.
Qed.

Lemma main_catches_witness :
  step_failure args_to_file world_down RequestException /\
  snd (main args_to_file world_down) = Ok tt /\
  count is_error_record (fst (main args_to_file world_down)) = 1 /\
  exists t, fst (main args_to_file world_down) = t ++ [LogError RequestException].
Proof.
  assert (step_failure args_to_file world_down RequestException) as H
    by (apply search_fails; reflexivity).
  split; [exact H|].
  apply (main_catches_every_failure args_to_file world_down RequestException H).
Defined.

(** The same on a failing detail fetch and on a failing table write. *)
Example later_failures_are_caught :
  main args_to_file world_detail_error =
    ([HttpGet BASE_URL (search_params "kinase inhibitor");
      HttpGet FETCH_URL (detail_params "101"); LogError (HTTPError 503)], Ok tt) /\
  main args_to_file world_read_only =
    ([HttpGet BASE_URL (search_params "kinase inhibitor");
      HttpGet FETCH_URL (detail_params "101"); LogError OSError], Ok tt).
Proof. split; reflexivity. Qed.

(** A run that succeeds writes no error record. *)
Lemma successful_run_logs_no_error (a : args) (w : world)
    (pubmed_ids paper_details : value) (extracted_data : list row) :
  snd (fetch_pubmed_ids (query a) w) = Ok pubmed_ids ->
  snd (fetch_paper_details pubmed_ids w) = Ok paper_details ->
  extracted_data_of pubmed_ids paper_details = Ok extracted_data ->
  snd (save_to_csv extracted_data (file a) w) = Ok tt ->
  count is_error_record (fst (main a w)) = 0.
Proof.
  intros H1 H2 H3 H4. rewrite main_run.
  enter_search a w t1. enter_detail_fetch pubmed_ids w t2. rewrite H3.
  enter_table_write extracted_data a w t3. simpl.
  rewrite !count_app, count_config, count_debug, C1, C2, C3; reflexivity.
Qed.

(** C10.  Every run ends with the same exit status: [main] returns normally
    whether the pipeline succeeded or an exception was caught and logged, so
    the status is 0 in both cases. *)
Theorem exit_status_is_always_success (a : args) (w : world) :
  exit_status (snd (main a w)) = 0%Z.
Proof. rewrite main_returns. reflexivity. Qed.

(** A failed run and a successful one, told apart by the error record only. *)
Example failed_and_successful_run :
  count is_error_record (fst (main args_to_file world_down)) = 1 /\
  exit_status (snd (main args_to_file world_down)) = 0%Z /\
  count is_error_record
    (fst (main args_to_file (world_of ["101"] [("101", VDict sample_paper)]))) = 0 /\
  exit_status
    (snd (main args_to_file (world_of ["101"] [("101", VDict sample_paper)]))) = 0%Z.
Proof. repeat split; reflexivity. Qed.

(** C3.  With the destination omitted the table writer prints nothing: the
    construction of the CSV writer over [print] raises [TypeError] before
    any row is rendered. *)
Theorem save_to_csv_without_destination_raises (data : list row) (w : world) :
  save_to_csv data None w = ([], Raise TypeError).
Proof. apply save_to_csv_run. Qed.

(** A run to the console on a search with one hit: the row is classified,
    nothing is printed, and the run ends on the error record. *)
Example console_run_prints_nothing :
  fst (main args_to_console (world_of ["101"] [("101", VDict sample_paper)])) =
    [LogConfig; HttpGet BASE_URL (search_params "kinase inhibitor");
     LogDebug (VList [VStr "101"]); HttpGet FETCH_URL (detail_params "101");
     LogError TypeError] /\
  extracted_data_of (VList [VStr "101"]) (VDict [("101", VDict sample_paper)])
    = Ok [sample_row] /\
  count is_print (fst (main args_to_console
                         (world_of ["101"] [("101", VDict sample_paper)]))) = 0.
Proof. repeat split; reflexivity. Qed.

(** ** Runs on an empty search result *)

(** C1, as the code has it.  When the search step returns zero identifiers
    the detail request is still sent, once, with an empty batch of
    identifiers; no data row is written; and when the detail request succeeds
    and the destination file is given and opens, the run ends by writing the
    header alone. *)
Theorem empty_search_fetches_and_writes_header_only (a : args) (w : world) :
  snd (fetch_pubmed_ids (query a) w) = Ok (VList []) ->
  count is_detail_request (fst (main a w)) = 1 /\
  In (HttpGet FETCH_URL (detail_params "")) (fst (main a w)) /\
  rows_written (fst (main a w)) = [] /\
  forall f details,
    file a = Some f -> f <> "" -> fs_open w f = true ->
    snd (fetch_paper_details (VList []) w) = Ok details ->
    fst (main a w) =
      config_events a ++ [HttpGet BASE_URL (search_params (query a))]
      ++ debug_events a (VList [])
      ++ [HttpGet FETCH_URL (detail_params ""); FileOpen f; CsvHeader f fieldnames;
          FileClose f].
Proof.
  intros H1.
  pose proof (fetch_pubmed_ids_trace (query a) w) as T1.
  pose proof (fetch_paper_details_trace (VList []) w) as T2.
  rewrite main_run.
  destruct (fetch_pubmed_ids (query a) w) as [t1 o1]. simpl in H1, T1. subst t1 o1.
  destruct (fetch_paper_details (VList []) w) as [t2 o2]. simpl in T2. subst t2.
  unfold config_events, debug_events.
  destruct o2 as [details|e].
  - change (extracted_data_of (VList []) details) with (@Ok (list row) []).
    cbv iota. rewrite save_to_csv_run.
    destruct (file a) as [f|]; [destruct (String.eqb f "") eqn:Ef;
      [|destruct (fs_open w f) eqn:Eo]|];
      (split; [destruct (debug a); reflexivity|]);
      (split; [destruct (debug a); simpl; tauto|]);
      (split; [destruct (debug a); reflexivity|]);
      intros f' details' Hf Hne Ho Hd; try discriminate;
      injection Hf as <-.
    + apply String.eqb_eq in Ef. contradiction.
    + destruct (debug a); reflexivity.
    + congruence.
  - (split; [destruct (debug a); reflexivity|]);
    (split; [destruct (debug a); simpl; tauto|]);
    (split; [destruct (debug a); reflexivity|]).
    intros f' details' _ _ _ Hd. discriminate.
Qed.

Lemma empty_search_witness :
  snd (fetch_pubmed_ids (query args_to_file) (world_of [] [])) = Ok (VList []) /\
  count is_detail_request (fst (main args_to_file (world_of [] []))) = 1 /\
  rows_written (fst (main args_to_file (world_of [] []))) = [] /\
  fst (main args_to_file (world_of [] [])) =
    [HttpGet BASE_URL (search_params "kinase inhibitor");
     HttpGet FETCH_URL (detail_params ""); FileOpen "out.csv";
     CsvHeader "out.csv" fieldnames; FileClose "out.csv"].
Proof.
  assert (snd (fetch_pubmed_ids (query args_to_file) (world_of [] [])) = Ok (VList []))
    as H by reflexivity.
  destruct (empty_search_fetches_and_writes_header_only args_to_file (world_of [] []) H)
    as (Hc & _ & Hr & Ht).
  split; [exact H|]. split; [exact Hc|]. split; [exact Hr|].
  apply (Ht "out.csv" (VDict [])); [reflexivity | discriminate | reflexivity | reflexivity].
Defined.

(** C1, as stated, fails: on a search that returns zero identifiers the
    detail request is sent all the same. *)
Lemma empty_search_still_fetches :
  snd (fetch_pubmed_ids (query args_to_file) (world_of [] [])) = Ok (VList []) /\
  In (HttpGet FETCH_URL (detail_params "")) (fst (main args_to_file (world_of [] []))) /\
  count is_detail_request (fst (main args_to_file (world_of [] []))) <> 0.
Proof.
  split; [reflexivity|]. split; [simpl; tauto|]. discriminate.
Qed.

(** ** The rows of a run *)

Lemma list_comp_In {A B} (cond : A -> outcome bool) (elt : A -> outcome B)
    (l : list A) (r : list B) :
  list_comp cond elt l = Ok r ->
  forall y, In y r -> exists x, In x l /\ cond x = Ok true /\ elt x = Ok y.
Proof.
  revert r. induction l as [|x l IH]; simpl; intros r H y Hy.
  - injection H as <-. destruct Hy.
  - destruct (cond x) as [[|]|e] eqn:Hc; simpl in H; try discriminate.
    + apply obind_Ok_inv in H as (y0 & Hy0 & H).
      apply obind_Ok_inv in H as (r' & Hr' & H).
      injection H as <-. destruct Hy as [<-|Hy]; [eauto|].
      destruct (IH _ Hr' _ Hy) as (x' & Hin & Hx'). eauto.
    + destruct (IH _ H _ Hy) as (x' & Hin & Hx'). eauto.
Qed.

Lemma rows_written_app (t1 t2 : trace) :
  rows_written (t1 ++ t2) = rows_written t1 ++ rows_written t2.
Proof.
  induction t1 as [|e t1 IH]; simpl; [reflexivity|].
  destruct e; simpl; rewrite IH; reflexivity.
Qed.

Lemma rows_written_rows (f : string) (data : list row) :
  rows_written (map (CsvRow f) data) = data.
Proof. induction data as [|r data IH]; simpl; [reflexivity | now rewrite IH]. Qed.

Lemma rows_written_config (a : args) : rows_written (config_events a) = [].
Proof. unfold config_events. destruct (debug a); reflexivity. Qed.

Lemma rows_written_debug (a : args) (ids : value) :
  rows_written (debug_events a ids) = [].
Proof. unfold debug_events. destruct (debug a); reflexivity. Qed.

Lemma rows_written_search (q : string) (w : world) :
  rows_written (fst (fetch_pubmed_ids q w)) = [].
Proof. rewrite fetch_pubmed_ids_trace. reflexivity. Qed.

Lemma rows_written_detail_fetch (ids : value) (w : world) :
  rows_written (fst (fetch_paper_details ids w)) = [].
Proof.
  rewrite fetch_paper_details_trace. destruct (str_join "," ids); reflexivity.
Qed.

Lemma written_rows_prefix (w : world) (f : string) (i : nat) (data : list row) :
  exists rest, data = written_rows w f i data ++ rest.
Proof.
  revert i. induction data as [|r data IH]; intros i; simpl.
  - exists []. reflexivity.
  - destruct (fs_write w f i r); [exists (r :: data); reflexivity|].
    destruct (IH (S i)) as (rest & H). exists rest. simpl. now rewrite <- H.
Qed.

Lemma written_rows_complete (w : world) (f : string) (i : nat) (data : list row) :
  write_outcome w f i data = Ok tt -> written_rows w f i data = data.
Proof.
  revert i. induction data as [|r data IH]; intros i; simpl; [reflexivity|].
  destruct (fs_write w f i r); [discriminate|]. intros H. now rewrite IH.
Qed.

Lemma rows_written_table_write (data : list row) (filename : option string) (w : world) :
  exists rest, data = rows_written (fst (save_to_csv data filename w)) ++ rest.
Proof.
  rewrite save_to_csv_run.
  destruct filename as [f|]; [|exists data; reflexivity].
  destruct (String.eqb f ""); [exists data; reflexivity|].
  destruct (fs_open w f); [|exists data; reflexivity]. simpl.
  rewrite rows_written_app, rows_written_rows. simpl. rewrite app_nil_r.
  apply written_rows_prefix.
Qed.

Lemma rows_written_table_write_Ok (data : list row) (filename : option string)
    (w : world) :
  snd (save_to_csv data filename w) = Ok tt ->
  rows_written (fst (save_to_csv data filename w)) = data.
Proof.
  rewrite save_to_csv_run.
  destruct filename as [f|]; [|discriminate].
  destruct (String.eqb f ""); [discriminate|].
  destruct (fs_open w f); [|discriminate]. simpl. intros H.
  rewrite rows_written_app, rows_written_rows. simpl. rewrite app_nil_r.
  now apply written_rows_complete.
Qed.

Lemma written_rows_short (w : world) (f : string) (i : nat) (data : list row)
    (e : exn) :
  write_outcome w f i data = Raise e ->
  length (written_rows w f i data) < length data.
Proof.
  revert i. induction data as [|r data IH]; intros i; simpl; [discriminate|].
  destruct (fs_write w f i r); simpl; [lia|].
  intros H. specialize (IH _ H). lia.
Qed.

(** The rows a run writes are those the table writer wrote of the rows
    line 78 built. *)
Lemma rows_written_run (a : args) (w : world) (pubmed_ids paper_details : value) :
  snd (fetch_pubmed_ids (query a) w) = Ok pubmed_ids ->
  snd (fetch_paper_details pubmed_ids w) = Ok paper_details ->
  rows_written (fst (main a w)) =
  match extracted_data_of pubmed_ids paper_details with
  | Ok extracted_data => rows_written (fst (save_to_csv extracted_data (file a) w))
  | Raise _ => []
  end.
Proof.
  intros H1 H2. rewrite main_run.
  pose proof (rows_written_search (query a) w) as R1.
  pose proof (rows_written_detail_fetch pubmed_ids w) as R2.
  destruct (fetch_pubmed_ids (query a) w) as [t1 o1]. simpl in H1, R1. subst o1.
  destruct (fetch_paper_details pubmed_ids w) as [t2 o2]. simpl in H2, R2. subst o2.
  destruct (extracted_data_of pubmed_ids paper_details) as [rows|e].
  - destruct (save_to_csv rows (file a) w) as [t3 [u|e]]; simpl;
      rewrite !rows_written_app, rows_written_config, rows_written_debug, R1, R2;
      simpl; rewrite ?app_nil_r; reflexivity.
  - simpl.
    rewrite !rows_written_app, rows_written_config, rows_written_debug, R1, R2.
    reflexivity.
Qed.

(** A run without an error record went through the table write. *)
Lemma quiet_run_wrote_the_table (a : args) (w : world)
    (pubmed_ids paper_details : value) :
  snd (fetch_pubmed_ids (query a) w) = Ok pubmed_ids ->
  snd (fetch_paper_details pubmed_ids w) = Ok paper_details ->
  count is_error_record (fst (main a w)) = 0 ->
  exists extracted_data,
    extracted_data_of pubmed_ids paper_details = Ok extracted_data /\
    snd (save_to_csv extracted_data (file a) w) = Ok tt.
Proof.
  intros H1 H2. rewrite main_run.
  enter_search a w t1. enter_detail_fetch pubmed_ids w t2.
  destruct (extracted_data_of pubmed_ids paper_details) as [rows|e].
  - pose proof (table_write_logs_no_error rows (file a) w) as C3.
    destruct (save_to_csv rows (file a) w) as [t3 [[]|e]] eqn:E3; simpl in C3 |- *.
    + intros _. exists rows. rewrite E3. auto.
    + rewrite !count_app, count_config, count_debug, C1, C2, C3 by reflexivity.
      discriminate.
  - simpl. rewrite !count_app, count_config, count_debug, C1, C2 by reflexivity.
    discriminate.
Qed.

(** The identifier column of a row is the record's [uid], or the empty
    string when the record has none. *)
Lemma extract_paper_data_uid (paper : value) (r : row) :
  extract_paper_data paper = Ok r ->
  py_get paper "uid" (VStr "") = Ok (PubmedID r).
Proof.
  unfold extract_paper_data. intros H.
  repeat (apply obind_Ok_inv in H as (? & ? & H)).
  injection H as <-. simpl. assumption.
Qed.

(** Where the rows of line 78 come from. *)
Lemma extracted_data_of_In (pubmed_ids paper_details : value) (rows : list row) :
  extracted_data_of pubmed_ids paper_details = Ok rows ->
  exists searched,
    py_str_items pubmed_ids = Ok searched /\
    forall r, In r rows ->
      exists pid paper,
        In pid searched /\ py_contains paper_details pid = Ok true /\
        py_getitem paper_details pid = Ok paper /\
        extract_paper_data paper = Ok r.
Proof.
  unfold extracted_data_of. intros H.
  apply obind_Ok_inv in H as (searched & Hs & H).
  exists searched. split; [exact Hs|]. intros r Hr.
  destruct (list_comp_In _ _ _ _ H r Hr) as (pid & Hin & Hc & He).
  apply obind_Ok_inv in He as (paper & Hp & He). eauto 8.
Qed.

(** C4, as the code has it.  Every identifier written in the identifier
    column is the [uid] field (the empty string when there is none) of a
    record that the detail mapping holds under an identifier returned by the
    search step; it is itself one of the searched identifiers whenever those
    records carry their own key as [uid]. *)
Theorem output_identifiers_are_record_uids (a : args) (w : world)
    (pubmed_ids paper_details : value) :
  snd (fetch_pubmed_ids (query a) w) = Ok pubmed_ids ->
  snd (fetch_paper_details pubmed_ids w) = Ok paper_details ->
  exists searched,
    py_str_items pubmed_ids = Ok searched /\
    (forall r, In r (rows_written (fst (main a w))) ->
       exists pid paper,
         In pid searched /\ py_getitem paper_details pid = Ok paper /\
         py_get paper "uid" (VStr "") = Ok (PubmedID r)) /\
    ((forall pid paper,
        In pid searched -> py_getitem paper_details pid = Ok paper ->
        py_get paper "uid" (VStr "") = Ok (VStr pid)) ->
     forall r, In r (rows_written (fst (main a w))) ->
       exists pid, In pid searched /\ PubmedID r = VStr pid).
Proof.
  intros H1 H2.
  destruct (fetch_paper_details_Ok_joins _ _ _ H2) as (joined & Hj).
  unfold str_join in Hj. apply obind_Ok_inv in Hj as (searched & Hs & _).
  exists searched. split; [exact Hs|].
  assert (forall r, In r (rows_written (fst (main a w))) ->
            exists pid paper,
              In pid searched /\ py_getitem paper_details pid = Ok paper /\
              py_get paper "uid" (VStr "") = Ok (PubmedID r)) as Hrows.
  { intros r Hr. rewrite (rows_written_run a w _ _ H1 H2) in Hr.
    destruct (extracted_data_of pubmed_ids paper_details) as [rows|e] eqn:Hx;
      [|destruct Hr].
    destruct (extracted_data_of_In _ _ _ Hx) as (searched' & Hs' & Hin).
    assert (searched' = searched) as -> by congruence.
    destruct (rows_written_table_write rows (file a) w) as (rest & Hrest).
    assert (In r rows) as Hr' by (rewrite Hrest; apply in_or_app; now left).
    destruct (Hin r Hr') as (pid & paper & Hpid & _ & Hp & He).
    exists pid, paper. auto using extract_paper_data_uid. }
  split; [exact Hrows|].
  intros Huid r Hr.
  destruct (Hrows r Hr) as (pid & paper & Hpid & Hp & Hu).
  exists pid. split; [exact Hpid|].
  specialize (Huid pid paper Hpid Hp). congruence.
Qed.

Lemma output_identifiers_witness :
  snd (fetch_pubmed_ids (query args_to_file)
         world_partial)
    = Ok (VList (map VStr searched_ids)) /\
  snd (fetch_paper_details (VList (map VStr searched_ids))
         world_partial)
    = Ok (VDict partial_details) /\
  map PubmedID
    (rows_written
       (fst (main args_to_file world_partial)))
    = [VStr "101"; VStr "103"] /\
  exists searched,
    py_str_items (VList (map VStr searched_ids)) = Ok searched /\
    forall r,
      In r (rows_written
              (fst (main args_to_file
                      world_partial))) ->
      exists pid paper,
        In pid searched /\ py_getitem (VDict partial_details) pid = Ok paper /\
        py_get paper "uid" (VStr "") = Ok (PubmedID r).
Proof.
  split; [reflexivity|]. split; [reflexivity|]. split; [reflexivity|].
  destruct (output_identifiers_are_record_uids args_to_file
              world_partial
              (VList (map VStr searched_ids)) (VDict partial_details)
              eq_refl eq_refl) as (searched & Hs & Hrows & _).
  exists searched. split; [exact Hs | exact Hrows].
Defined.

(** C4, as stated, fails: the identifier column is copied from the record,
    and a record stored under a searched identifier may carry another uid. *)
Lemma output_identifier_not_searched :
  snd (fetch_pubmed_ids (query args_to_file) (world_of ["101"] mismatched_details))
    = Ok (VList [VStr "101"]) /\
  map PubmedID
    (rows_written (fst (main args_to_file (world_of ["101"] mismatched_details))))
    = [VStr "999"] /\
  ~ In (VStr "999") [VStr "101"].
Proof.
  split; [reflexivity|]. split; [reflexivity|].
  intros [H|[]]. discriminate.
Qed.

(** Line 78 on a list of identifiers and a mapping: the identifiers the
    mapping lacks are passed over, the others are classified in order. *)
Lemma extracted_data_of_present (ids : list string) (d : list (string * value)) :
  extracted_data_of (VList (map VStr ids)) (VDict d) =
  list_comp (fun _ => Ok true)
            (fun pid => paper <~ py_getitem (VDict d) pid ;; extract_paper_data paper)
            (present_ids d ids).
Proof.
  unfold extracted_data_of, py_str_items, present_ids. simpl.
  rewrite all_str_map_VStr. simpl.
  apply (list_comp_filter (dict_mem d)).
Qed.

Lemma filter_length_bound {A} (p : A -> bool) (l : list A) :
  length (filter p l) <= length l.
Proof.
  induction l as [|x l IH]; simpl; [lia|]. destruct (p x); simpl; lia.
Qed.

(** C5, as the code has it.  In a run whose search step returned the
    identifiers [ids] and whose detail step returned the mapping [d]: the
    table built at line 78
    has exactly one row per searched identifier that is a key of [d], at most
    as many as there are searched identifiers; an identifier that [d] lacks
    gives no row and raises nothing, the only errors of line 78 being those
    of the classifier on a record that is present; the rows written by the run
    are never more, and are exactly as many when the run logs no error. *)
Theorem row_count_is_number_of_present_identifiers (a : args) (w : world)
    (ids : list string) (d : list (string * value)) :
  snd (fetch_pubmed_ids (query a) w) = Ok (VList (map VStr ids)) ->
  snd (fetch_paper_details (VList (map VStr ids)) w) = Ok (VDict d) ->
  length (present_ids d ids) <= length ids /\
  (forall rows,
     extracted_data_of (VList (map VStr ids)) (VDict d) = Ok rows ->
     length rows = length (present_ids d ids)) /\
  (forall e,
     extracted_data_of (VList (map VStr ids)) (VDict d) = Raise e ->
     exists pid paper,
       In pid (present_ids d ids) /\ dict_lookup d pid = Some paper /\
       extract_paper_data paper = Raise e) /\
  length (rows_written (fst (main a w))) <= length (present_ids d ids) /\
  (count is_error_record (fst (main a w)) = 0 ->
   length (rows_written (fst (main a w))) = length (present_ids d ids)).
Proof.
  intros H1 H2.
  assert (forall rows,
            extracted_data_of (VList (map VStr ids)) (VDict d) = Ok rows ->
            length rows = length (present_ids d ids)) as Hlen.
  { intros rows Hx. rewrite extracted_data_of_present in Hx.
    now apply list_comp_all_length in Hx. }
  split; [apply filter_length_bound|]. split; [exact Hlen|]. split; [|split].
  - intros e Hx. rewrite extracted_data_of_present in Hx.
    apply list_comp_all_Raise in Hx as (pid & Hin & Hx).
    exists pid.
    assert (dict_mem d pid = true) as Hm by (apply filter_In in Hin; tauto).
    unfold dict_mem in Hm. simpl in Hx.
    destruct (dict_lookup d pid) as [paper|]; [|discriminate].
    exists paper. auto.
  - rewrite (rows_written_run a w _ _ H1 H2).
    destruct (extracted_data_of (VList (map VStr ids)) (VDict d)) as [rows|e];
      [|simpl; lia].
    specialize (Hlen rows eq_refl).
    destruct (rows_written_table_write rows (file a) w) as (rest & Hrest).
    apply (f_equal (@length row)) in Hrest. rewrite length_app in Hrest. lia.
  - intros Hq.
    destruct (quiet_run_wrote_the_table a w _ _ H1 H2 Hq) as (rows & Hx & Hw).
    rewrite (rows_written_run a w _ _ H1 H2), Hx,
      (rows_written_table_write_Ok _ _ _ Hw).
    now apply Hlen.
Qed.

Lemma row_count_witness :
  snd (fetch_pubmed_ids (query args_to_file) world_partial)
    = Ok (VList (map VStr searched_ids)) /\
  snd (fetch_paper_details (VList (map VStr searched_ids)) world_partial)
    = Ok (VDict partial_details) /\
  count is_error_record (fst (main args_to_file world_partial)) = 0 /\
  present_ids partial_details searched_ids = ["101"; "103"] /\
  length (rows_written (fst (main args_to_file world_partial))) = 2.
Proof.
  split; [reflexivity|]. split; [reflexivity|]. split; [reflexivity|].
  split; [reflexivity|].
  destruct (row_count_is_number_of_present_identifiers args_to_file world_partial
              searched_ids partial_details eq_refl eq_refl)
    as (_ & _ & _ & _ & Heq).
  exact (Heq eq_refl).
Defined.

(** * Further properties of the program *)

(** ** The two requests *)

Lemma fetch_pubmed_ids_outcome (q : string) (w : world) :
  snd (fetch_pubmed_ids q w) =
  match http_get w BASE_URL (search_params q) with
  | Unreachable => Raise RequestException
  | Responded st b =>
      if status_ok st then
        match b with
        | Some j => r <~ py_get j "esearchresult" (VDict []) ;;
                    py_get r "idlist" (VList [])
        | None => Raise JSONDecodeError
        end
      else Raise (HTTPError st)
  end.
Proof.
  unfold fetch_pubmed_ids, bind, requests_get, raise_for_status, response_json,
    lift, status_ok.
  fold (search_params q).
  destruct (http_get w BASE_URL (search_params q)) as [|st b]; simpl; [reflexivity|].
  destruct ((400 <=? st)%Z && (st <? 600)%Z); simpl; [reflexivity|].
  destruct b as [j|]; simpl; [|reflexivity].
  destruct (py_get j "esearchresult" (VDict [])); reflexivity.
Qed.

Lemma fetch_paper_details_outcome (pubmed_ids : value) (joined : string) (w : world) :
  str_join "," pubmed_ids = Ok joined ->
  snd (fetch_paper_details pubmed_ids w) =
  match http_get w FETCH_URL (detail_params joined) with
  | Unreachable => Raise RequestException
  | Responded st b =>
      if status_ok st then
        match b with
        | Some j => py_get j "result" (VDict [])
        | None => Raise JSONDecodeError
        end
      else Raise (HTTPError st)
  end.
Proof.
  intros Hj.
  unfold fetch_paper_details, bind, lift. rewrite Hj. simpl.
  fold (detail_params joined).
  unfold requests_get, raise_for_status, response_json, status_ok.
  destruct (http_get w FETCH_URL (detail_params joined)) as [|st b]; simpl; [reflexivity|].
  destruct ((400 <=? st)%Z && (st <? 600)%Z); simpl; [reflexivity|].
  destruct b as [j|]; reflexivity.
Qed.

Lemma status_in_error_range (st : Z) :
  (400 <= st < 600)%Z -> status_ok st = false.
Proof.
  intros H. unfold status_ok.
  replace (400 <=? st)%Z with true by (symmetry; apply Z.leb_le; lia).
  replace (st <? 600)%Z with true by (symmetry; apply Z.ltb_lt; lia).
  reflexivity.
Qed.

Lemma status_out_of_error_range (st : Z) :
  (st < 400 \/ 600 <= st)%Z -> status_ok st = true.
Proof.
  intros H. unfold status_ok.
  destruct (Z.leb_spec 400 st), (Z.ltb_spec st 600); simpl; try reflexivity; lia.
Qed.

Lemma str_join_strings (sep : string) (ids : list string) :
  str_join sep (VList (map VStr ids)) = Ok (String.concat sep ids).
Proof.
  unfold str_join, py_str_items. simpl. now rewrite all_str_map_VStr.
Qed.

(** X1.  A status code from 400 to 599 makes a request raise [HTTPError]
    with that code, whatever the body of the response: an error status is
    never parsed, even when its body is well-formed JSON.  This holds of the
    search request and of the detail request, each on its own. *)
Theorem error_status_raises_whatever_the_body (w : world) (q : string)
    (pubmed_ids : value) (joined : string) (st : Z) (b : option value) :
  (400 <= st < 600)%Z ->
  (http_get w BASE_URL (search_params q) = Responded st b ->
   snd (fetch_pubmed_ids q w) = Raise (HTTPError st)) /\
  (str_join "," pubmed_ids = Ok joined ->
   http_get w FETCH_URL (detail_params joined) = Responded st b ->
   snd (fetch_paper_details pubmed_ids w) = Raise (HTTPError st)).
Proof.
  intros R. split.
  - intros H.
    rewrite fetch_pubmed_ids_outcome, H, (status_in_error_range _ R). reflexivity.
  - intros Hj H.
    rewrite (fetch_paper_details_outcome _ _ _ Hj), H, (status_in_error_range _ R).
    reflexivity.
Qed.

Lemma error_status_witness :
  snd (fetch_pubmed_ids "kinase inhibitor" world_search_limited) = Raise (HTTPError 429) /\
  snd (fetch_paper_details (VList [VStr "101"; VStr "102"]) world_detail_error)
    = Raise (HTTPError 503).
Proof.
  split.
  - apply (proj1 (error_status_raises_whatever_the_body world_search_limited
                    "kinase inhibitor" VNone "" 429
                    (Some (VDict [("error", VStr "API rate limit exceeded")]))
                    ltac:(lia))).
    reflexivity.
  - apply (proj2 (error_status_raises_whatever_the_body world_detail_error
                    "kinase inhibitor" (VList [VStr "101"; VStr "102"]) "101,102" 503
                    None ltac:(lia)));
      reflexivity.
Defined.

(** X2.  A successful search response whose JSON object has no
    [esearchresult], or whose [esearchresult] has no [idlist], counts as a
    search without hits: the function returns the empty list. *)
Theorem search_without_idlist_returns_no_identifier (w : world) (q : string)
    (st : Z) (top : list (string * value)) :
  http_get w BASE_URL (search_params q) = Responded st (Some (VDict top)) ->
  (st < 400 \/ 600 <= st)%Z ->
  dict_lookup top "esearchresult" = None \/
    (exists r, dict_lookup top "esearchresult" = Some (VDict r) /\
               dict_lookup r "idlist" = None) ->
  fetch_pubmed_ids q w = ([HttpGet BASE_URL (search_params q)], Ok (VList [])).
Proof.
  intros H Hst Hk.
  rewrite (surjective_pairing (fetch_pubmed_ids q w)).
  rewrite fetch_pubmed_ids_trace, fetch_pubmed_ids_outcome, H,
    (status_out_of_error_range _ Hst).
  simpl. destruct Hk as [-> | (r & -> & Hr)]; simpl; [reflexivity|].
  now rewrite Hr.
Qed.

Lemma search_without_idlist_witness :
  fetch_pubmed_ids "kinase inhibitor" world_bare =
    ([HttpGet BASE_URL (search_params "kinase inhibitor")], Ok (VList [])).
Proof.
  apply (search_without_idlist_returns_no_identifier world_bare "kinase inhibitor"
           200 [("header", VDict [])]).
  - reflexivity.
  - left. lia.
  - left. reflexivity.
Defined.

(** X3.  The identifiers are joined before anything is sent: when the join
    fails (the value is not iterable, or an item is not a str) the detail
    fetch raises [TypeError] and no request leaves. *)
Theorem detail_fetch_joins_before_sending (pubmed_ids : value) (w : world) (e : exn) :
  str_join "," pubmed_ids = Raise e ->
  e = TypeError /\ fetch_paper_details pubmed_ids w = ([], Raise TypeError).
Proof.
  intros Hj.
  assert (e = TypeError) as ->.
  { unfold str_join, py_str_items in Hj.
    destruct pubmed_ids as [| | | |s|l|d]; simpl in Hj; try congruence.
    - destruct (all_str (map VStr (chars s))) eqn:Ha; simpl in Hj; [discriminate|].
      rewrite all_str_map_VStr in Ha. discriminate.
    - destruct (all_str l) eqn:Ha; simpl in Hj; [discriminate|].
      injection Hj as <-. clear -Ha.
      induction l as [|v l IH]; simpl in Ha; [discriminate|].
      destruct v; try congruence.
      destruct (all_str l); simpl in Ha; [discriminate|].
      injection Ha as <-. now apply IH.
    - destruct (all_str (map (fun kv => VStr (fst kv)) d)) eqn:Ha; simpl in Hj;
        [discriminate|].
      rewrite <- (map_map fst VStr), all_str_map_VStr in Ha. discriminate. }
  split; [reflexivity|].
  unfold fetch_paper_details, bind, lift. rewrite Hj. reflexivity.
Qed.

Lemma detail_fetch_joins_witness :
  str_join "," (VList [VStr "101"; VInt 102]) = Raise TypeError /\
  fetch_paper_details (VList [VStr "101"; VInt 102]) world_partial = ([], Raise TypeError).
Proof.
  split; [reflexivity|].
  apply (detail_fetch_joins_before_sending (VList [VStr "101"; VInt 102]) world_partial
           TypeError eq_refl).
Defined.

(** X4.  However many identifiers the search returned, the detail fetch
    sends them in one request, as a single comma-separated [id] parameter in
    search order; the batch is never split and the request never repeated. *)
Theorem detail_fetch_sends_one_batch (ids : list string) (w : world) :
  fst (fetch_paper_details (VList (map VStr ids)) w) =
  [HttpGet FETCH_URL
     [("db", VStr "pubmed"); ("id", VStr (String.concat "," ids));
      ("retmode", VStr "json")]].
Proof.
  rewrite fetch_paper_details_trace, str_join_strings. reflexivity.
Qed.

(** X5.  A successful detail response whose JSON object has no [result]
    counts as an empty mapping, from which line 78 builds an empty table
    whatever the searched identifiers. *)
Theorem detail_without_result_gives_empty_table (w : world) (ids : list string)
    (st : Z) (top : list (string * value)) :
  http_get w FETCH_URL (detail_params (String.concat "," ids))
    = Responded st (Some (VDict top)) ->
  (st < 400 \/ 600 <= st)%Z ->
  dict_lookup top "result" = None ->
  snd (fetch_paper_details (VList (map VStr ids)) w) = Ok (VDict []) /\
  extracted_data_of (VList (map VStr ids)) (VDict []) = Ok [].
Proof.
  intros H Hst Hk. split.
  - rewrite (fetch_paper_details_outcome _ _ _ (str_join_strings "," ids)), H,
      (status_out_of_error_range _ Hst).
    simpl. now rewrite Hk.
  - rewrite extracted_data_of_present.
    replace (present_ids [] ids) with (@nil string); [reflexivity|].
    clear. unfold present_ids. induction ids as [|pid ids IH]; simpl; auto.
Qed.

Lemma detail_without_result_witness :
  snd (fetch_paper_details (VList (map VStr searched_ids)) world_bare) = Ok (VDict []) /\
  extracted_data_of (VList (map VStr searched_ids)) (VDict []) = Ok [].
Proof.
  apply (detail_without_result_gives_empty_table world_bare searched_ids 200
           [("header", VDict [])]).
  - reflexivity.
  - left. lia.
  - reflexivity.
Defined.

(** ** The classifier, further *)

Lemma extract_paper_data_dict (paper : list (string * value)) :
  extract_paper_data (VDict paper) =
  (authors_seq <~ py_iter (get_or paper "authors" (VList [])) ;;
   non_academic_authors <~ non_academic_authors_of authors_seq ;;
   company_affiliations <~ company_affiliations_of authors_seq ;;
   na <~ str_join ", " (VList non_academic_authors) ;;
   co <~ str_join ", " (VList company_affiliations) ;;
   Ok (mkRow (get_or paper "uid" (VStr "")) (get_or paper "title" (VStr ""))
             (get_or paper "pubdate" (VStr "")) na co
             (get_or paper "elocationid" (VStr "")))).
Proof.
  unfold extract_paper_data, py_get, get_or. simpl.
  destruct (py_iter _) as [l|e]; simpl; [|reflexivity].
  destruct (non_academic_authors_of l) as [na|e]; simpl; [|reflexivity].
  destruct (company_affiliations_of l) as [co|e]; simpl; [|reflexivity].
  destruct (str_join ", " (VList na)) as [x|e]; simpl; [|reflexivity].
  destruct (str_join ", " (VList co)) as [y|e]; reflexivity.
Qed.

Lemma str_join_list (sep : string) (l : list value) :
  str_join sep (VList l) = (r <~ all_str l ;; Ok (String.concat sep r)).
Proof. reflexivity. Qed.

Lemma single_author_goes_through (author : value) :
  (exists names comps,
     non_academic_authors_of [author] = Ok (map VStr names) /\
     company_affiliations_of [author] = Ok (map VStr comps)) <->
  author_accepted author = true.
Proof.
  destruct author as [| | | | | |d];
    try (split; [intros (ns & cs & H & _); unfold non_academic_authors_of in H;
                 simpl in H; discriminate H | discriminate]).
  unfold author_accepted.
  destruct (get_or d "affiliation" (VStr "")) as [| | | |aff| |] eqn:Hg;
    try (split; [|discriminate]; intros (ns & cs & H & _);
         unfold non_academic_authors_of, list_comp, is_non_academic, affiliation_of,
           py_get in H;
         fold (get_or d "affiliation" (VStr "")) in H; rewrite Hg in H;
         discriminate H).
  destruct (own_share d aff Hg) as [-> ->].
  destruct (Re.search_str academic_pattern aff); simpl.
  - split; [reflexivity|]. intros _. exists [].
    destruct (Re.search_str company_pattern aff); [exists [aff] | exists []]; auto.
  - destruct (dict_lookup d "name") as [[| | | |name| |]|]; simpl;
      try (split; [|discriminate]; intros (ns & cs & H & _);
           try discriminate H;
           injection H as H; destruct ns as [|s [|s' ns]]; discriminate H).
    split; [reflexivity|]. intros _. exists [name].
    destruct (Re.search_str company_pattern aff); [exists [aff] | exists []]; auto.
Qed.

Lemma authors_go_through (authors : list value) :
  (exists names comps,
     non_academic_authors_of authors = Ok (map VStr names) /\
     company_affiliations_of authors = Ok (map VStr comps)) <->
  forallb author_accepted authors = true.
Proof.
  induction authors as [|a authors IH].
  - split; [reflexivity|]. intros _. exists [], []. auto.
  - change (a :: authors) with ([a] ++ authors).
    rewrite forallb_app. simpl forallb at 1. rewrite andb_true_r, andb_true_iff.
    rewrite <- IH, <- single_author_goes_through.
    split.
    + intros (n & c & Hn & Hc).
      apply list_comp_app_inv in Hn as (n1 & n2 & Hn1 & Hn2 & En).
      apply list_comp_app_inv in Hc as (c1 & c2 & Hc1 & Hc2 & Ec).
      symmetry in En, Ec.
      apply map_VStr_app_inv in En as (n1' & n2' & -> & -> & _).
      apply map_VStr_app_inv in Ec as (c1' & c2' & -> & -> & _).
      split; eauto.
    + intros [(n1 & c1 & Hn1 & Hc1) (n2 & c2 & Hn2 & Hc2)].
      exists (n1 ++ n2), (c1 ++ c2).
      rewrite non_academic_authors_of_app, company_affiliations_of_app,
        Hn1, Hn2, Hc1, Hc2, !map_app. auto.
Qed.

(** X6.  The classifier returns a row exactly for the records of this
    shape: a dict whose [authors], if any, can be iterated and yields only
    dicts whose affiliation is absent or a str and whose name is a str, the
    name being dispensable for a contributor matching the academic pattern.
    On every other value it raises. *)
Theorem extract_paper_data_returns_iff (paper : value) :
  (exists r, extract_paper_data paper = Ok r) <-> paper_accepted paper = true.
Proof.
  destruct paper as [| | | | | |d];
    try (split; [intros (r & H); discriminate H | discriminate]).
  rewrite extract_paper_data_dict. unfold paper_accepted.
  destruct (py_iter (get_or d "authors" (VList []))) as [l|e]; simpl;
    [|split; [intros (r & H); discriminate H | discriminate]].
  rewrite <- authors_go_through. split.
  - intros (r & H).
    apply obind_Ok_inv in H as (na & Hna & H).
    apply obind_Ok_inv in H as (co & Hco & H).
    apply obind_Ok_inv in H as (x & Hx & H).
    apply obind_Ok_inv in H as (y & Hy & H).
    rewrite str_join_list in Hx, Hy.
    apply obind_Ok_inv in Hx as (names & Hx & _).
    apply obind_Ok_inv in Hy as (comps & Hy & _).
    apply all_str_inv in Hx, Hy. subst. eauto.
  - intros (names & comps & -> & ->). simpl.
    rewrite !str_join_list, !all_str_map_VStr. simpl. eauto.
Qed.

Lemma well_shaped_author (d : list (string * value)) :
  author_ok (VDict d) = true ->
  non_academic_authors_of [VDict d]
    = Ok (map VStr (map author_name (filter non_academic [VDict d]))) /\
  company_affiliations_of [VDict d]
    = Ok (map VStr (map author_affiliation (filter company [VDict d]))).
Proof.
  intros Ha. simpl in Ha.
  destruct (dict_lookup d "name") as [[| | | |name| |]|] eqn:Hname; try discriminate.
  assert (exists aff, get_or d "affiliation" (VStr "") = VStr aff /\
                      author_affiliation (VDict d) = aff) as (aff & Hg & Haff).
  { unfold get_or, author_affiliation.
    destruct (dict_lookup d "affiliation") as [[| | | |aff| |]|];
      try discriminate; eauto. }
  destruct (own_share d aff Hg) as [-> ->].
  unfold filter, non_academic, company. rewrite Haff. simpl in Haff.
  destruct (Re.search_str academic_pattern aff),
           (Re.search_str company_pattern aff);
    simpl; rewrite ?Hname, ?Haff; simpl; auto.
Qed.

Lemma well_shaped_authors (authors : list value) :
  forallb author_ok authors = true ->
  non_academic_authors_of authors
    = Ok (map VStr (map author_name (filter non_academic authors))) /\
  company_affiliations_of authors
    = Ok (map VStr (map author_affiliation (filter company authors))).
Proof.
  induction authors as [|a authors IH]; intros H; [simpl; auto|].
  simpl in H. apply andb_true_iff in H as [Ha H]. destruct (IH H) as [Hn Hc].
  change (a :: authors) with ([a] ++ authors).
  rewrite non_academic_authors_of_app, company_affiliations_of_app, Hn, Hc.
  destruct a as [| | | | | |d]; try discriminate.
  destruct (well_shaped_author d Ha) as [-> ->].
  rewrite !filter_app, !map_app. auto.
Qed.

(** X7.  For a record whose contributor entries all have a str name and a
    str (or no) affiliation, the row is: the four plain fields copied with
    the empty string as default; the names, in record order and joined by
    ", ", of the contributors whose affiliation does not match the academic
    pattern; the affiliations, likewise, of those matching the company
    pattern. *)
Theorem well_shaped_record_row (paper : list (string * value)) (authors : list value) :
  dict_lookup paper "authors" = Some (VList authors) ->
  forallb author_ok authors = true ->
  extract_paper_data (VDict paper) =
  Ok (mkRow (get_or paper "uid" (VStr "")) (get_or paper "title" (VStr ""))
            (get_or paper "pubdate" (VStr ""))
            (String.concat ", " (map author_name (filter non_academic authors)))
            (String.concat ", " (map author_affiliation (filter company authors)))
            (get_or paper "elocationid" (VStr ""))).
Proof.
  intros Ha Hok. rewrite extract_paper_data_dict.
  unfold get_or at 1. rewrite Ha. simpl.
  destruct (well_shaped_authors _ Hok) as [-> ->]. simpl.
  rewrite !str_join_list, !all_str_map_VStr. reflexivity.
Qed.

Lemma well_shaped_record_witness :
  extract_paper_data (VDict sample_paper) =
  Ok (mkRow (VStr "101") (VStr "Kinase inhibitors in practice") (VStr "2024 Mar")
            (String.concat ", " (map author_name (filter non_academic sample_authors)))
            (String.concat ", " (map author_affiliation (filter company sample_authors)))
            (VStr "doi: 10.1000/x101")).
Proof.
  apply (well_shaped_record_row sample_paper sample_authors); reflexivity.
Defined.

(** X8.  A record without contributors (no [authors] key, or an empty
    list) is classified without error: both joined columns are the empty
    string and the four plain fields are copied, each defaulting to the empty
    string. *)
Theorem record_without_authors_row (paper : list (string * value)) :
  dict_lookup paper "authors" = None \/ dict_lookup paper "authors" = Some (VList []) ->
  extract_paper_data (VDict paper) =
  Ok (mkRow (get_or paper "uid" (VStr "")) (get_or paper "title" (VStr ""))
            (get_or paper "pubdate" (VStr "")) "" ""
            (get_or paper "elocationid" (VStr ""))).
Proof.
  intros H. rewrite extract_paper_data_dict. unfold get_or at 1.
  destruct H as [-> | ->]; reflexivity.
Qed.

Lemma record_without_authors_witness :
  extract_paper_data (VDict [("uid", VStr "103"); ("title", VStr "A field survey")]) =
  Ok (mkRow (VStr "103") (VStr "A field survey") (VStr "") "" "" (VStr "")).
Proof.
  apply (record_without_authors_row [("uid", VStr "103"); ("title", VStr "A field survey")]).
  left. reflexivity.
Defined.

Lemma extract_paper_data_returns_witness :
  paper_accepted (VDict sample_paper) = true /\
  paper_accepted (VDict nameless_paper) = false /\
  exists r, extract_paper_data (VDict sample_paper) = Ok r.
Proof.
  split; [reflexivity|]. split; [reflexivity|].
  apply (proj2 (extract_paper_data_returns_iff (VDict sample_paper))). reflexivity.
Defined.

(** ** The two patterns *)

Lemma lower_idempotent (c : ascii) : Re.lower (Re.lower c) = Re.lower c.
Proof. destruct c as [[] [] [] [] [] [] [] []]; reflexivity. Qed.

Lemma existsb_ext_in {A} (f g : A -> bool) (l : list A) :
  (forall x, In x l -> f x = g x) -> existsb f l = existsb g l.
Proof.
  induction l as [|x l IH]; intros H; simpl; [reflexivity|].
  rewrite (H x (or_introl eq_refl)), IH; [reflexivity|].
  intros y Hy. apply H. now right.
Qed.

(** The bytes of the folds are not letters, in either case. *)
Lemma fold_byte_lower (n : nat) (b : ascii) :
  In n [196; 176; 177; 197; 191; 226; 132; 170] ->
  Ascii.eqb (ascii_of_nat n) (Re.lower b) = Ascii.eqb (ascii_of_nat n) b.
Proof.
  intros H. simpl in H.
  repeat (destruct H as [<-|H];
          [destruct b as [[] [] [] [] [] [] [] []]; reflexivity|]).
  destruct H.
Qed.

Lemma strip_fold_lower (l : list nat) (s : string) :
  incl l [196; 176; 177; 197; 191; 226; 132; 170] ->
  Re.strip_prefix (Re.bytes l) (lower_str s)
  = option_map lower_str (Re.strip_prefix (Re.bytes l) s).
Proof.
  revert s. induction l as [|n l IH]; intros s Hl; [reflexivity|].
  destruct s as [|b s]; [reflexivity|].
  cbn [Re.bytes fold_right lower_str Re.strip_prefix].
  rewrite fold_byte_lower by (apply Hl; now left).
  destruct (Ascii.eqb (ascii_of_nat n) b); [|reflexivity].
  apply IH. intros x Hx. apply Hl. now right.
Qed.

Lemma folds_are_bytes (a : ascii) (f : string) :
  In f (Re.folds a) ->
  exists l, f = Re.bytes l /\ incl l [196; 176; 177; 197; 191; 226; 132; 170].
Proof.
  unfold Re.folds.
  destruct (N_of_ascii (Re.lower a) =? 105)%N;
    [|destruct (N_of_ascii (Re.lower a) =? 115)%N;
      [|destruct (N_of_ascii (Re.lower a) =? 107)%N]];
    cbn [In]; intros H;
    repeat (destruct H as [<-|H];
            [eexists; split; [reflexivity|];
             intros x Hx; simpl in Hx |- *; tauto|]);
    destruct H.
Qed.

Lemma match_here_lower (p s : string) :
  Re.match_here p (lower_str s) = Re.match_here p s.
Proof.
  revert s. induction p as [|a p IH]; intros s; [reflexivity|].
  cbn [Re.match_here]. f_equal.
  - destruct s as [|b s]; simpl; [reflexivity|].
    now rewrite lower_idempotent, IH.
  - apply existsb_ext_in. intros f Hf.
    destruct (folds_are_bytes a f Hf) as (l & -> & Hl).
    rewrite (strip_fold_lower l s Hl).
    destruct (Re.strip_prefix (Re.bytes l) s) as [s'|]; simpl; [apply IH | reflexivity].
Qed.

Lemma search_literal_lower (p s : string) :
  Re.search_literal p (lower_str s) = Re.search_literal p s.
Proof.
  induction s as [|b s IH].
  - reflexivity.
  - change (lower_str (String b s)) with (String (Re.lower b) (lower_str s)).
    cbn [Re.search_literal].
    rewrite <- IH.
    change (String (Re.lower b) (lower_str s)) with (lower_str (String b s)).
    now rewrite match_here_lower.
Qed.

Lemma search_str_lower (pat s : string) :
  Re.search_str pat (lower_str s) = Re.search_str pat s.
Proof.
  unfold Re.search_str.
  induction (Re.branches pat) as [|b bs IH]; simpl; [reflexivity|].
  now rewrite search_literal_lower, IH.
Qed.

(** X9.  Letter case plays no part in the classification: two contributor
    entries whose affiliation texts are equal up to the case of their ASCII
    letters get the same verdict from both tests of lines 36 and 37. *)
Theorem classification_ignores_case (d1 d2 : list (string * value)) (s1 s2 : string) :
  get_or d1 "affiliation" (VStr "") = VStr s1 ->
  get_or d2 "affiliation" (VStr "") = VStr s2 ->
  lower_str s1 = lower_str s2 ->
  is_non_academic (VDict d1) = is_non_academic (VDict d2) /\
  is_company (VDict d1) = is_company (VDict d2).
Proof.
  intros H1 H2 Hl.
  unfold is_non_academic, is_company, affiliation_of, py_get.
  fold (get_or d1 "affiliation" (VStr "")). fold (get_or d2 "affiliation" (VStr "")).
  rewrite H1, H2. simpl.
  rewrite <- (search_str_lower academic_pattern s1),
          <- (search_str_lower company_pattern s1), Hl, !search_str_lower.
  auto.
Qed.

Lemma classification_ignores_case_witness :
  is_non_academic (VDict author_stanford)
    = is_non_academic (VDict [("name", VStr "Lee K");
                              ("affiliation", VStr "STANFORD UNIVERSITY")]) /\
  is_company (VDict author_stanford)
    = is_company (VDict [("name", VStr "Lee K");
                         ("affiliation", VStr "STANFORD UNIVERSITY")]).
Proof.
  apply (classification_ignores_case author_stanford
           [("name", VStr "Lee K"); ("affiliation", VStr "STANFORD UNIVERSITY")]
           "Stanford University" "STANFORD UNIVERSITY");
    reflexivity.
Defined.

Lemma strip_prefix_append (f s s' post : string) :
  Re.strip_prefix f s = Some s' ->
  Re.strip_prefix f (String.append s post) = Some (String.append s' post).
Proof.
  revert s. induction f as [|a f IH]; intros s H.
  - simpl in H. injection H as <-. reflexivity.
  - destruct s as [|b s]; simpl in *; [discriminate|].
    destruct (Ascii.eqb a b); [now apply IH | discriminate].
Qed.

Lemma match_here_append (p s post : string) :
  Re.match_here p s = true -> Re.match_here p (String.append s post) = true.
Proof.
  revert s. induction p as [|a p IH]; intros s H; [reflexivity|].
  cbn [Re.match_here] in H |- *.
  apply orb_true_iff in H as [H|H]; apply orb_true_iff.
  - left. destruct s as [|b s]; [discriminate|]. simpl.
    apply andb_true_iff in H as [-> H]. simpl. now apply IH.
  - right. apply existsb_exists in H as (f & Hf & H). apply existsb_exists.
    exists f. split; [exact Hf|].
    destruct (Re.strip_prefix f s) as [s'|] eqn:Hs; [|discriminate].
    rewrite (strip_prefix_append _ _ _ post Hs). now apply IH.
Qed.

Lemma search_literal_head (p s : string) :
  Re.match_here p s = true -> Re.search_literal p s = true.
Proof. intros H. destruct s; cbn [Re.search_literal]; now rewrite H. Qed.

Lemma search_literal_append (p s post : string) :
  Re.search_literal p s = true -> Re.search_literal p (String.append s post) = true.
Proof.
  induction s as [|b s IH]; intros H.
  - cbn [Re.search_literal] in H. rewrite orb_false_r in H.
    apply search_literal_head. now apply (match_here_append p "" post).
  - cbn [Re.search_literal] in H. apply orb_true_iff in H as [H|H].
    + apply search_literal_head. now apply match_here_append.
    + simpl String.append. cbn [Re.search_literal].
      rewrite (IH H). apply orb_true_r.
Qed.

Lemma search_literal_prepend (p pre s : string) :
  Re.search_literal p s = true -> Re.search_literal p (String.append pre s) = true.
Proof.
  intros H. induction pre as [|c pre IH]; [exact H|].
  simpl String.append. cbn [Re.search_literal]. rewrite IH. apply orb_true_r.
Qed.

Lemma search_str_embedded (pat pre s post : string) :
  Re.search_str pat s = true ->
  Re.search_str pat (String.append pre (String.append s post)) = true.
Proof.
  unfold Re.search_str. intros H.
  apply existsb_exists in H as (b & Hb & H). apply existsb_exists.
  exists b. split; [exact Hb|].
  now apply search_literal_prepend, search_literal_append.
Qed.

(** X10.  The patterns are matched anywhere in the affiliation text, with
    no word boundary: a contributor whose affiliation contains a text
    matching the academic pattern is left out of the non-academic names, and
    one whose affiliation contains a text matching the company pattern has
    the whole affiliation listed, whatever surrounds the matching text. *)
Theorem classification_is_by_substring (d : list (string * value))
    (pre s post : string) :
  get_or d "affiliation" (VStr "")
    = VStr (String.append pre (String.append s post)) ->
  (Re.search_str academic_pattern s = true ->
   non_academic_authors_of [VDict d] = Ok []) /\
  (Re.search_str company_pattern s = true ->
   company_affiliations_of [VDict d]
     = Ok [VStr (String.append pre (String.append s post))]).
Proof.
  intros Hg. destruct (own_share d _ Hg) as [-> ->]. split; intros H.
  - now rewrite (search_str_embedded _ pre s post H).
  - now rewrite (search_str_embedded _ pre s post H).
Qed.

Lemma classification_is_by_substring_witness :
  non_academic_authors_of
    [VDict [("name", VStr "Mills T");
            ("affiliation", VStr "Collaborative Biopharma Solutions Ltd")]] = Ok [] /\
  company_affiliations_of
    [VDict [("name", VStr "Mills T");
            ("affiliation", VStr "Collaborative Biopharma Solutions Ltd")]]
    = Ok [VStr "Collaborative Biopharma Solutions Ltd"].
Proof.
  split.
  - apply (proj1 (classification_is_by_substring
                    [("name", VStr "Mills T");
                     ("affiliation", VStr "Collaborative Biopharma Solutions Ltd")]
                    "Col" "lab" "orative Biopharma Solutions Ltd" eq_refl)).
    reflexivity.
  - apply (proj2 (classification_is_by_substring
                    [("name", VStr "Mills T");
                     ("affiliation", VStr "Collaborative Biopharma Solutions Ltd")]
                    "Collaborative Bio" "pharma" " Solutions Ltd" eq_refl)).
    reflexivity.
Defined.

(** ** The table writer, further *)

Lemma all_rows_written (w : world) (f : string) (j : nat) (data : list row) :
  (forall i r, nth_error data i = Some r -> fs_write w f (j + i) r = None) ->
  written_rows w f j data = data /\ write_outcome w f j data = Ok tt.
Proof.
  revert j. induction data as [|r data IH]; intros j H; simpl; [auto|].
  pose proof (H 0 r eq_refl) as H0. rewrite Nat.add_0_r in H0. rewrite H0.
  destruct (IH (S j)) as [-> ->]; [|auto].
  intros i r' Hi. replace (S j + i) with (j + S i) by lia. now apply H.
Qed.



(** X11.  Written to a file that opens and takes every row, the table is
    the header with the six column names followed by the rows in the order
    given, between the opening and the closing of the file; reading the rows
    back from the trace gives the data. *)
Theorem save_to_csv_writes_header_then_rows (data : list row) (f : string) (w : world) :
  f <> "" -> fs_open w f = true ->
  (forall i r, nth_error data i = Some r -> fs_write w f i r = None) ->
  save_to_csv data (Some f) w =
    (FileOpen f
     :: CsvHeader f ["PubmedID"; "Title"; "Publication Date"; "Non-academic Author(s)";
                     "Company Affiliation(s)"; "Corresponding Author Email"]
     :: map (CsvRow f) data ++ [FileClose f], Ok tt) /\
  rows_written (fst (save_to_csv data (Some f) w)) = data.
Proof.
  intros Hf Ho Hw. apply String.eqb_neq in Hf.
  destruct (all_rows_written w f 0 data Hw) as [Hr Hq].
  assert (save_to_csv data (Some f) w =
            (FileOpen f :: CsvHeader f fieldnames :: map (CsvRow f) data
             ++ [FileClose f], Ok tt)) as Hs
    by now rewrite save_to_csv_run, Hf, Ho, Hr, Hq.
  split; [exact Hs|].
  apply rows_written_table_write_Ok. now rewrite Hs.
Qed.

Lemma save_to_csv_writes_witness :
  save_to_csv [sample_row; sample_row] (Some "out.csv") world_partial =
    (FileOpen "out.csv"
     :: CsvHeader "out.csv"
          ["PubmedID"; "Title"; "Publication Date"; "Non-academic Author(s)";
           "Company Affiliation(s)"; "Corresponding Author Email"]
     :: map (CsvRow "out.csv") [sample_row; sample_row] ++ [FileClose "out.csv"],
     Ok tt) /\
  rows_written (fst (save_to_csv [sample_row; sample_row] (Some "out.csv") world_partial))
    = [sample_row; sample_row].
Proof.
  apply (save_to_csv_writes_header_then_rows [sample_row; sample_row] "out.csv"
           world_partial); [discriminate | reflexivity | reflexivity].
Defined.



(** X12.  When the destination cannot be opened the table writer raises
    [OSError] and writes nothing, not even the header. *)
Theorem save_to_csv_open_failure_writes_nothing (data : list row) (f : string)
    (w : world) :
  f <> "" -> fs_open w f = false ->
  save_to_csv data (Some f) w = ([], Raise OSError).
Proof.
  intros Hf Ho. apply String.eqb_neq in Hf.
  now rewrite save_to_csv_run, Hf, Ho.
Qed.

Lemma save_to_csv_open_failure_witness :
  save_to_csv [sample_row] (Some "out.csv") world_read_only = ([], Raise OSError).
Proof.
  apply (save_to_csv_open_failure_writes_nothing [sample_row] "out.csv" world_read_only);
    [discriminate | reflexivity].
Defined.

(** X13.  An empty file name is no destination: [if filename:] sends it to
    the console branch, so no file is opened, whether or not one could be, and
    the call raises [TypeError] as with the destination omitted. *)
Theorem empty_filename_is_no_destination (data : list row) (w : world) :
  save_to_csv data (Some "") w = save_to_csv data None w /\
  count is_file_event (fst (save_to_csv data (Some "") w)) = 0 /\
  snd (save_to_csv data (Some "") w) = Raise TypeError.
Proof. rewrite !save_to_csv_run. auto. Qed.

(** ** Line 78, further *)

Lemma list_comp_all_Forall2 {A B} (elt : A -> outcome B) (l : list A) (r : list B) :
  list_comp (fun _ => Ok true) elt l = Ok r ->
  Forall2 (fun x y => elt x = Ok y) l r.
Proof.
  revert r. induction l as [|x l IH]; simpl; intros r H.
  - injection H as <-. constructor.
  - apply obind_Ok_inv in H as (y & Hy & H).
    apply obind_Ok_inv in H as (r' & Hr' & H).
    injection H as <-. constructor; auto.
Qed.

(** X14.  The rows of the table follow the search order: row by row, they
    are the classifications of the records stored under the searched
    identifiers that the mapping holds, in the order the search returned them
    (an identifier returned twice gives its row twice). *)
Theorem rows_follow_search_order (ids : list string) (d : list (string * value))
    (rows : list row) :
  extracted_data_of (VList (map VStr ids)) (VDict d) = Ok rows ->
  Forall2 (fun pid r =>
             exists paper, dict_lookup d pid = Some paper /\
                           extract_paper_data paper = Ok r)
          (present_ids d ids) rows.
Proof.
  intros H. rewrite extracted_data_of_present in H.
  apply list_comp_all_Forall2 in H.
  eapply Forall2_impl; [|exact H].
  intros pid r Hr. simpl in Hr.
  destruct (dict_lookup d pid) as [paper|]; [eauto | discriminate].
Qed.

Lemma rows_follow_search_order_witness :
  extracted_data_of (VList (map VStr ["103"; "102"; "101"; "103"])) (VDict partial_details)
    = Ok [mkRow (VStr "103") (VStr "A field survey") (VStr "") "" "" (VStr "");
          sample_row;
          mkRow (VStr "103") (VStr "A field survey") (VStr "") "" "" (VStr "")] /\
  Forall2 (fun pid r =>
             exists paper, dict_lookup partial_details pid = Some paper /\
                           extract_paper_data paper = Ok r)
          (present_ids partial_details ["103"; "102"; "101"; "103"])
          [mkRow (VStr "103") (VStr "A field survey") (VStr "") "" "" (VStr "");
           sample_row;
           mkRow (VStr "103") (VStr "A field survey") (VStr "") "" "" (VStr "")].
Proof.
  split; [reflexivity|].
  apply (rows_follow_search_order ["103"; "102"; "101"; "103"] partial_details).
  reflexivity.
Defined.

Lemma list_comp_without_element {A B} (cond : A -> outcome bool)
    (elt : A -> outcome B) (l : list A) (r : list B) :
  (forall x y, elt x <> Ok y) ->
  list_comp cond elt l = Ok r -> r = [].
Proof.
  intros He. revert r. induction l as [|x l IH]; simpl; intros r H.
  - now injection H as <-.
  - destruct (cond x) as [[|]|e]; simpl in H; try discriminate; [|auto].
    destruct (elt x) as [y|e] eqn:Hx; [now destruct (He x y) | discriminate].
Qed.

(** X15.  When the [result] of the detail response is not a JSON object
    (a list, a string, a number, null) line 78 never builds a row: whatever
    the identifiers, it ends with an empty table or raises. *)
Theorem non_mapping_details_give_no_row (pubmed_ids paper_details : value)
    (rows : list row) :
  (forall d, paper_details <> VDict d) ->
  extracted_data_of pubmed_ids paper_details = Ok rows ->
  rows = [].
Proof.
  intros Hd H. unfold extracted_data_of in H.
  apply obind_Ok_inv in H as (pids & _ & H).
  apply list_comp_without_element in H; [exact H|].
  intros pid r Hr.
  destruct paper_details; try discriminate. now destruct (Hd d).
Qed.

Lemma non_mapping_details_witness :
  extracted_data_of (VList [VStr "101"]) (VList [VStr "102"; VStr "103"]) = Ok [] /\
  extracted_data_of (VList [VStr "101"]) (VList [VStr "101"]) = Raise TypeError.
Proof.
  split; [|reflexivity].
  assert (exists rows,
            extracted_data_of (VList [VStr "101"]) (VList [VStr "102"; VStr "103"])
            = Ok rows) as (rows & H) by (eexists; reflexivity).
  rewrite H. f_equal.
  apply (non_mapping_details_give_no_row (VList [VStr "101"])
           (VList [VStr "102"; VStr "103"]) rows); [discriminate | exact H].
Defined.

(** ** Whole runs *)

(** The four forms of the trace of a run: the search failed; the
    identifiers did not join; the detail request left and a later step failed
    before any file was opened; the file was opened and the table written, as
    far as the writes went. *)
Lemma main_trace_cases (a : args) (w : world) :
  (exists e,
     fst (main a w) =
       config_events a ++ [HttpGet BASE_URL (search_params (query a)); LogError e]) \/
  (exists ids e,
     fst (main a w) =
       config_events a ++ [HttpGet BASE_URL (search_params (query a))]
       ++ debug_events a ids ++ [LogError e]) \/
  (exists ids joined e,
     fst (main a w) =
       config_events a ++ [HttpGet BASE_URL (search_params (query a))]
       ++ debug_events a ids
       ++ [HttpGet FETCH_URL (detail_params joined); LogError e]) \/
  (exists ids joined details f rows,
     file a = Some f /\
     snd (fetch_pubmed_ids (query a) w) = Ok ids /\
     snd (fetch_paper_details ids w) = Ok details /\
     extracted_data_of ids details = Ok rows /\
     fst (main a w) =
       (config_events a ++ [HttpGet BASE_URL (search_params (query a))]
        ++ debug_events a ids ++ [HttpGet FETCH_URL (detail_params joined)])
       ++ [FileOpen f; CsvHeader f fieldnames]
       ++ map (CsvRow f) (written_rows w f 0 rows) ++ [FileClose f]
       ++ match write_outcome w f 0 rows with
          | Ok _ => []
          | Raise e => [LogError e]
          end).
Proof.
  rewrite main_run.
  pose proof (fetch_pubmed_ids_trace (query a) w) as T1.
  destruct (fetch_pubmed_ids (query a) w) as [t1 [ids|e]]; simpl in T1; subst t1;
    [|left; exists e; reflexivity].
  right.
  pose proof (fetch_paper_details_trace ids w) as T2.
  destruct (fetch_paper_details ids w) as [t2 o2] eqn:E2. simpl in T2.
  destruct (str_join "," ids) as [joined|e'] eqn:Hj; subst t2.
  - right.
    destruct o2 as [details|e]; [|left; exists ids, joined, e; reflexivity].
    destruct (extracted_data_of ids details) as [rows|e] eqn:Hx;
      [|left; exists ids, joined, e; reflexivity].
    rewrite save_to_csv_run.
    destruct (file a) as [f|]; [|left; exists ids, joined, TypeError; reflexivity].
    destruct (String.eqb f ""); [left; exists ids, joined, TypeError; reflexivity|].
    destruct (fs_open w f); [|left; exists ids, joined, OSError; reflexivity].
    right. exists ids, joined, details, f, rows.
    split; [reflexivity|]. split; [reflexivity|].
    split; [rewrite E2; reflexivity|]. split; [exact Hx|].
    destruct (write_outcome w f 0 rows) as [[]|e]; trace_eq.
  - left. destruct o2 as [details|e].
    + exfalso.
      destruct (fetch_paper_details_Ok_joins ids details w) as (j & Hj');
        [rewrite E2; reflexivity | congruence].
    + exists ids, e. reflexivity.
Qed.

Lemma count_file_rows (f : string) (rows : list row) :
  count is_file_event (map (CsvRow f) rows) = length rows.
Proof.
  unfold count. induction rows as [|r rows IH]; simpl; [reflexivity | now rewrite IH].
Qed.

Ltac count_trace :=
  rewrite ?count_app, ?count_config, ?count_debug, ?count_rows, ?count_file_rows
    by reflexivity;
  try reflexivity.



(** X17.  A run sends the search request once and the detail request at
    most once, and nothing else: one or two requests in all, never a
    retry. *)
Theorem run_sends_one_or_two_requests (a : args) (w : world) :
  count is_request (fst (main a w)) = 1 + count is_detail_request (fst (main a w)) /\
  count is_detail_request (fst (main a w)) <= 1.
Proof.
  destruct (main_trace_cases a w)
    as [(e & H) | [(ids & e & H) | [(ids & j & e & H) |
        (ids & j & details & f & rows & Hf & H1 & H2 & Hx & H)]]];
    rewrite H; try destruct (write_outcome w f 0 rows) as [[]|e];
    count_trace; split; vm_compute; lia.
Qed.

(** X18.  No run prints a row: the loop of lines 58 and 59 is never
    reached, with or without a destination. *)
Theorem main_never_prints (a : args) (w : world) :
  count is_print (fst (main a w)) = 0.
Proof.
  destruct (main_trace_cases a w)
    as [(e & H) | [(ids & e & H) | [(ids & j & e & H) |
        (ids & j & details & f & rows & Hf & H1 & H2 & Hx & H)]]];
    rewrite H; try destruct (write_outcome w f 0 rows) as [[]|e];
    count_trace.
Qed.

Lemma without_debug_records_app (t1 t2 : trace) :
  without_debug_records (t1 ++ t2) = without_debug_records t1 ++ without_debug_records t2.
Proof. apply filter_app. Qed.

Lemma without_debug_records_config (a : args) :
  without_debug_records (config_events a) = [].
Proof. unfold config_events. destruct (debug a); reflexivity. Qed.

Lemma without_debug_records_debug (a : args) (ids : value) :
  without_debug_records (debug_events a ids) = [].
Proof. unfold debug_events. destruct (debug a); reflexivity. Qed.

Lemma without_debug_records_search (q : string) (w : world) :
  without_debug_records (fst (fetch_pubmed_ids q w)) = fst (fetch_pubmed_ids q w).
Proof. rewrite fetch_pubmed_ids_trace. reflexivity. Qed.

Lemma without_debug_records_detail (ids : value) (w : world) :
  without_debug_records (fst (fetch_paper_details ids w)) = fst (fetch_paper_details ids w).
Proof. rewrite fetch_paper_details_trace. destruct (str_join "," ids); reflexivity. Qed.

Lemma without_debug_records_rows (f : string) (data : list row) :
  without_debug_records (map (CsvRow f) data) = map (CsvRow f) data.
Proof.
  unfold without_debug_records.
  induction data as [|r data IH]; simpl; [reflexivity | now rewrite IH].
Qed.

Lemma without_debug_records_write (data : list row) (filename : option string)
    (w : world) :
  without_debug_records (fst (save_to_csv data filename w))
  = fst (save_to_csv data filename w).
Proof.
  rewrite save_to_csv_run. destruct filename as [f|]; [|reflexivity].
  destruct (String.eqb f ""); [reflexivity|].
  destruct (fs_open w f); [|reflexivity]. simpl fst.
  change (FileOpen f :: CsvHeader f fieldnames
          :: map (CsvRow f) (written_rows w f 0 data) ++ [FileClose f])
    with ([FileOpen f; CsvHeader f fieldnames]
          ++ map (CsvRow f) (written_rows w f 0 data) ++ [FileClose f]).
  rewrite !without_debug_records_app, without_debug_records_rows. reflexivity.
Qed.

(** X19.  The debug flag changes nothing but the log: with [--debug] a
    run returns the same way and its trace, once the two kinds of debug
    record are taken out, is the trace of the run without the flag: the same
    requests, the same file, the same rows, the same error record. *)
Theorem debug_flag_only_adds_log_records (q : string) (f : option string) (w : world) :
  snd (main (mkArgs q f true) w) = snd (main (mkArgs q f false) w) /\
  without_debug_records (fst (main (mkArgs q f true) w))
  = fst (main (mkArgs q f false) w).
Proof.
  split; [now rewrite !main_returns|].
  rewrite !main_run. cbn [query file].
  pose proof (without_debug_records_search q w) as K1.
  destruct (fetch_pubmed_ids q w) as [t1 [ids|e]]; simpl in K1.
  - pose proof (without_debug_records_detail ids w) as K2.
    destruct (fetch_paper_details ids w) as [t2 [details|e]]; simpl in K2.
    + destruct (extracted_data_of ids details) as [rows|e].
      * pose proof (without_debug_records_write rows f w) as K3.
        destruct (save_to_csv rows f w) as [t3 [[]|e]]; simpl in K3; cbn [fst];
          rewrite !without_debug_records_app, without_debug_records_config,
            without_debug_records_debug, K1, K2, K3; reflexivity.
      * cbn [fst].
        rewrite !without_debug_records_app, without_debug_records_config,
          without_debug_records_debug, K1, K2. reflexivity.
    + cbn [fst].
      rewrite !without_debug_records_app, without_debug_records_config,
        without_debug_records_debug, K1, K2. reflexivity.
  - cbn [fst].
    rewrite !without_debug_records_app, without_debug_records_config, K1. reflexivity.
Qed.

(** X20.  A run on well-shaped data goes through: when the search returns
    a list of identifiers, the detail step a mapping whose records under those
    identifiers are all well-shaped, and the destination file opens and takes
    every row, the run logs no error and writes exactly the rows of line 78,
    one per searched identifier that the mapping holds. *)
Theorem well_shaped_run_succeeds (a : args) (w : world) (ids : list string)
    (d : list (string * value)) (f : string) :
  snd (fetch_pubmed_ids (query a) w) = Ok (VList (map VStr ids)) ->
  snd (fetch_paper_details (VList (map VStr ids)) w) = Ok (VDict d) ->
  (forall pid paper,
     In pid ids -> dict_lookup d pid = Some paper -> paper_ok paper = true) ->
  file a = Some f -> f <> "" -> fs_open w f = true ->
  (forall i r, fs_write w f i r = None) ->
  exists rows,
    extracted_data_of (VList (map VStr ids)) (VDict d) = Ok rows /\
    rows_written (fst (main a w)) = rows /\
    length rows = length (present_ids d ids) /\
    count is_error_record (fst (main a w)) = 0.
Proof.
  intros H1 H2 Hok Hf Hne Ho Hw.
  destruct (extracted_data_of (VList (map VStr ids)) (VDict d)) as [rows|e] eqn:Hx.
  - assert (save_to_csv rows (file a) w =
              (FileOpen f :: CsvHeader f fieldnames :: map (CsvRow f) rows
               ++ [FileClose f], Ok tt)) as Hs.
    { apply String.eqb_neq in Hne.
      destruct (all_rows_written w f 0 rows (fun i r _ => Hw i r)) as [Hr Hq].
      now rewrite save_to_csv_run, Hf, Hne, Ho, Hr, Hq. }
    exists rows. split; [reflexivity|]. split; [|split].
    + rewrite (rows_written_run a w _ _ H1 H2), Hx.
      apply rows_written_table_write_Ok. now rewrite Hs.
    + rewrite extracted_data_of_present in Hx.
      now apply list_comp_all_length in Hx.
    + apply (successful_run_logs_no_error a w _ _ rows H1 H2 Hx).
      now rewrite Hs.
  - exfalso. rewrite extracted_data_of_present in Hx.
    apply list_comp_all_Raise in Hx as (pid & Hin & Hx).
    apply filter_In in Hin as [Hin Hm]. unfold dict_mem in Hm. simpl in Hx.
    destruct (dict_lookup d pid) as [paper|] eqn:Hp; [|discriminate].
    destruct (extract_paper_data_returns paper (Hok pid paper Hin Hp)) as (r & Hr).
    simpl in Hx. congruence.
Qed.

Lemma well_shaped_run_witness :
  exists rows,
    extracted_data_of (VList (map VStr searched_ids)) (VDict partial_details) = Ok rows /\
    rows_written (fst (main args_to_file world_partial)) = rows /\
    length rows = length (present_ids partial_details searched_ids) /\
    count is_error_record (fst (main args_to_file world_partial)) = 0.
Proof.
  apply (well_shaped_run_succeeds args_to_file world_partial searched_ids
           partial_details "out.csv"); try reflexivity; [|discriminate].
  intros pid paper [<-|[<-|[<-|[]]]] H; vm_compute in H; try discriminate;
    injection H as <-; reflexivity.
Defined.

(** X21.  A search response with a passing status and a body that is not
    the expected JSON makes the search raise: [JSONDecodeError] when the body
    is not JSON at all, [AttributeError] when it is JSON but not an object, or
    when its [esearchresult] is not an object. *)
Theorem malformed_search_body_raises (w : world) (q : string) (st : Z)
    (b : option value) :
  http_get w BASE_URL (search_params q) = Responded st b ->
  (st < 400 \/ 600 <= st)%Z ->
  (b = None -> snd (fetch_pubmed_ids q w) = Raise JSONDecodeError) /\
  (forall j, b = Some j -> (forall top, j <> VDict top) ->
             snd (fetch_pubmed_ids q w) = Raise AttributeError) /\
  (forall top r, b = Some (VDict top) ->
                 dict_lookup top "esearchresult" = Some r ->
                 (forall d, r <> VDict d) ->
                 snd (fetch_pubmed_ids q w) = Raise AttributeError).
Proof.
  intros H Hst.
  rewrite fetch_pubmed_ids_outcome, H, (status_out_of_error_range _ Hst).
  split; [|split].
  - now intros ->.
  - intros j -> Hj. destruct j; try reflexivity. now destruct (Hj d).
  - intros top r -> Hr Hd. simpl. rewrite Hr.
    destruct r; try reflexivity. now destruct (Hd d).
Qed.

Lemma malformed_search_body_witness :
  snd (fetch_pubmed_ids "kinase inhibitor"
         world_not_json)
    = Raise JSONDecodeError.
Proof.
  apply (proj1 (malformed_search_body_raises
                  world_not_json
                  "kinase inhibitor" 200 None eq_refl (or_introl eq_refl))).
  reflexivity.
Defined.

(** One record that cannot be classified keeps the whole table back, the
    row of the well-shaped record included. *)
Example one_bad_record_suppresses_the_table :
  extract_paper_data (VDict sample_paper) = Ok sample_row /\
  main args_to_file world_half_broken =
    ([HttpGet BASE_URL (search_params "kinase inhibitor");
      HttpGet FETCH_URL (detail_params "102,101"); LogError (KeyError "name")],
     Ok tt).
Proof. split; reflexivity. Qed.

(** C5, as stated, fails: the searched identifier is a key of the detail
    mapping and its record is well-shaped, but the destination cannot be
    opened, the error is caught, and the run writes no row. *)
Lemma unwritable_destination_gives_no_row :
  snd (fetch_pubmed_ids (query args_to_file) world_unwritable)
    = Ok (VList (map VStr ["101"])) /\
  snd (fetch_paper_details (VList (map VStr ["101"])) world_unwritable)
    = Ok (VDict [("101", VDict sample_paper)]) /\
  present_ids [("101", VDict sample_paper)] ["101"] = ["101"] /\
  rows_written (fst (main args_to_file world_unwritable)) = [] /\
  length (rows_written (fst (main args_to_file world_unwritable)))
    <> length (present_ids [("101", VDict sample_paper)] ["101"]).
Proof. repeat split; try reflexivity. discriminate. Qed.

(** The characters of a str are its code points, not its bytes. *)
Example chars_of_encoded_text :
  chars (String "a" (String.append (Re.bytes [196; 177]) "b"))
  = ["a"; Re.bytes [196; 177]; "b"].
Proof. reflexivity. Qed.

(** Letters outside ASCII that [re.IGNORECASE] takes for [s] and [i] make
    an affiliation academic: the first contributor is left out of the names,
    and the name of the second, which is missing, is never read. *)
Example unicode_letters_match_the_academic_pattern :
  Re.search_str academic_pattern long_s_affiliation = true /\
  Re.search_str academic_pattern dotless_i_affiliation = true /\
  extract_paper_data
    (VDict [("uid", VStr "105");
            ("authors",
             VList [VDict [("name", VStr "Hale R");
                           ("affiliation", VStr long_s_affiliation)];
                    VDict [("affiliation", VStr dotless_i_affiliation)]])])
  = Ok (mkRow (VStr "105") (VStr "") (VStr "") "" "" (VStr "")).
Proof. repeat split; reflexivity. Qed.

(** A row that the encoding of the file cannot take cuts the table short:
    the row before it is in the file, the rows from it on are not, and the
    run ends on the error record. *)
Example write_error_cuts_the_table_short :
  extracted_data_of (VList (map VStr ["101"; "104"; "103"])) (VDict umlaut_details)
    = Ok [sample_row; umlaut_row; sample_row] /\
  main args_to_file (world_ascii_files ["101"; "104"; "103"] umlaut_details) =
    ([HttpGet BASE_URL (search_params "kinase inhibitor");
      HttpGet FETCH_URL (detail_params "101,104,103");
      FileOpen "out.csv"; CsvHeader "out.csv" fieldnames; CsvRow "out.csv" sample_row;
      FileClose "out.csv"; LogError UnicodeEncodeError], Ok tt).
Proof. split; reflexivity. Qed.
